(** * La Chica del Clima: the simulation and risk-analysis engine of main.py

    A shallow embedding of [AdvancedTempoProcessor] (main.py) and the
    properties its specification states about it.

    Conventions of the embedding.
    - Python floats are idealised as exact rationals ([Q]); comparisons
      are the boolean tests of the source.  The concrete evaluations
      below use inputs on which binary floating point gives the same
      results.
    - Python strings used as tags (area types, risk levels, labels) stay
      strings; dicts with string keys are [gmap string _].
    - [datetime] values are integers: microseconds since the epoch.
      String renderings of numbers and dates (isoformat, strftime,
      f-strings) are kept as the value that is rendered.
    - The outside world (clock, Gaussian sampler, standard output, the
      two HTTP exchanges, the sine routine) is an explicit [World] read
      through a tick counter; the processor's cache is explicit state. *)

From Stdlib Require Import ZArith QArith Qabs Qround Lqa Lia String List Bool.
From stdpp Require Import gmap strings.
Import ListNotations.

Open Scope string_scope.
Open Scope list_scope.
Open Scope Z_scope.
Open Scope Q_scope.

(** ** Python numerics on rationals *)

Module Py.

(** [x < y] as the source evaluates it. *)
Definition ltb (x y : Q) : bool :=
  (Qnum x * QDen y <? Qnum y * QDen x)%Z.

(** [int(x)]: truncation toward zero. *)
Definition int (x : Q) : Z := Z.quot (Qnum x) (QDen x).

(** [max(a, b)]: the first argument unless the second is larger. *)
Definition max (a b : Q) : Q := if ltb a b then b else a.

(** [min(a, b)] on integers: the first argument unless the second is
    smaller. *)
Definition minZ (a b : Z) : Z := if (b <? a)%Z then b else a.

(** [round(x, ndigits)]: nearest multiple of [10^-ndigits], ties to the
    even multiple. *)
Definition round (x : Q) (ndigits : nat) : Q :=
  let scale := (10 ^ Z.of_nat ndigits)%Z in
  let y := x * inject_Z scale in
  let f := Qfloor y in
  let r := y - inject_Z f in
  let n := if ltb r (1 # 2) then f
           else if ltb (1 # 2) r then (f + 1)%Z
           else if Z.even f then f else (f + 1)%Z in
  Qmake n (Z.to_pos scale).

(** [s in l] for a list of strings. *)
Definition str_in (s : string) (l : list string) : bool :=
  existsb (String.eqb s) l.

End Py.

Notation "x <? y" := (Py.ltb x y) : Q_scope.
Notation "x >? y" := (Py.ltb y x) : Q_scope.

(** ** Area classification (lines 165-186) *)

Definition _is_major_urban (lat lon : Q) : bool :=
  (Qabs lat >? 10) && (Qabs lat <? 60).

Definition _classify_area (lat lon : Q) : string :=
  if (Qabs (lat - 19.43) <? 0.5) && (Qabs (lon + 99.13) <? 0.5) then
    "urban_center_high"
  else if (Qabs (lat - 40.7) <? 0.5) && (Qabs (lon + 74.0) <? 0.5) then
    "urban_center"
  else if (Qabs (lat - 34.0) <? 0.5) && (Qabs (lon + 118.2) <? 0.5) then
    "urban_center_high"
  else if (Qabs (lat - 25.7) <? 1.0) && (Qabs (lon + 100.3) <? 1.0) then
    "industrial_heavy"
  else if (Qabs (lat - 32.5) <? 1.0) && (Qabs (lon + 117.0) <? 1.0) then
    "industrial"
  else if (Qabs (lat - 28.6) <? 1.0) && (Qabs (lon - 77.2) <? 1.0) then
    "urban_center_extreme"
  else if (Qabs (lat - 39.9) <? 1.0) && (Qabs (lon - 116.4) <? 1.0) then
    "urban_center_extreme"
  else if _is_major_urban lat lon then
    "urban_center"
  else
    "residential".

(** The six tags [_classify_area] can return. *)
Inductive AreaType : Set :=
| urban_center
| urban_center_high
| urban_center_extreme
| industrial
| industrial_heavy
| residential.

Definition area_name (a : AreaType) : string :=
  match a with
  | urban_center => "urban_center"
  | urban_center_high => "urban_center_high"
  | urban_center_extreme => "urban_center_extreme"
  | industrial => "industrial"
  | industrial_heavy => "industrial_heavy"
  | residential => "residential"
  end.

(** ** Vulnerable groups and risk level (lines 188-224) *)

Definition _identify_vulnerable_groups (area_type : string) : list string :=
  let groups := ["children"; "elderly"; "asthmatics"] in
  if Py.str_in area_type ["urban_center_high"; "urban_center_extreme"] then
    groups ++ ["schools"; "hospitals"; "outdoor_workers"; "low_income"]
  else if String.eqb area_type "urban_center" then
    groups ++ ["schools"; "hospitals"; "outdoor_workers"]
  else if Py.str_in area_type ["industrial"; "industrial_heavy"] then
    groups ++ ["schools"; "low_income"; "outdoor_workers"]
  else if String.eqb area_type "residential" then
    groups ++ ["schools"; "elderly_communities"]
  else
    groups.

(** Lines 203-209: the risk read off the concentration alone. *)
Definition base_risk (no2_level : Q) : string :=
  if no2_level >? 150 then "Muy Alto"
  else if no2_level >? 100 then "Alto"
  else if no2_level >? 50 then "Moderado"
  else "Bajo".

Definition _calculate_risk_level (no2_level : Q) (area_type : string) : string :=
  let base_risk := base_risk no2_level in
  if Py.str_in area_type ["urban_center_extreme"; "industrial_heavy"] then
    if String.eqb base_risk "Bajo" then "Moderado"
    else if String.eqb base_risk "Moderado" then "Alto"
    else if String.eqb base_risk "Alto" then "Muy Alto"
    else base_risk
  else if Py.str_in area_type ["urban_center_high"; "industrial"] then
    if String.eqb base_risk "Bajo" then "Moderado"
    else if String.eqb base_risk "Moderado" then "Alto"
    else base_risk
  else
    base_risk.

Definition _get_risk_factors (area_type : string) (no2_level : Q) : list string :=
  let factors : list string := [] in
  let factors :=
    if no2_level >? 80 then factors ++ ["Alta concentración de NO2"] else factors in
  let factors :=
    if no2_level >? 120 then factors ++ ["Niveles peligrosos de contaminación"]
    else factors in
  let factors :=
    if Py.str_in area_type ["urban_center_high"; "urban_center_extreme"]
    then factors ++ ["Alta densidad de tráfico vehicular"] else factors in
  let factors :=
    if Py.str_in area_type ["industrial"; "industrial_heavy"]
    then factors ++ ["Proximidad a zonas industriales"] else factors in
  let factors :=
    if String.eqb area_type "urban_center_extreme"
    then factors ++ ["Zona crítica de contaminación"] else factors in
  match factors with
  | [] => ["Condiciones normales"]
  | _ => factors
  end.

Record VulnerabilityAnalysis := {
  area_type : string;
  vulnerable_groups : list string;
  risk_level : string;
  risk_factors : list string;
  protection_priority : string
}.

Definition _analyze_vulnerability (lat lon no2_level : Q) : VulnerabilityAnalysis :=
  let area_type := _classify_area lat lon in
  let vulnerable_groups := _identify_vulnerable_groups area_type in
  let risk_level := _calculate_risk_level no2_level area_type in
  {| area_type := area_type;
     vulnerable_groups := vulnerable_groups;
     risk_level := risk_level;
     risk_factors := _get_risk_factors area_type no2_level;
     protection_priority :=
       if Py.str_in risk_level ["Alto"; "Muy Alto"] then "Alta" else "Media" |}.

(** ** Recommendations (lines 105-163) *)

Record Recommendations := {
  general : list string;
  for_schools : list string;
  for_elderly : list string;
  for_health_centers : list string;
  immediate_actions : list string
}.

Definition _generate_recommendations
    (no2_level : Q) (risk_level : string) (vulnerable_groups : list string)
    : Recommendations :=
  let '(general, immediate_actions) :=
    if no2_level >? 80 then
      (["Evitar actividades al aire libre prolongadas";
        "Usar mascarilla en exteriores";
        "Mantener ventanas cerradas"],
       ["Activar protocolos de calidad del aire"])
    else if no2_level >? 50 then
      (["Limitar actividades físicas intensas al aire libre";
        "Monitorear síntomas respiratorios"], [])
    else
      (["Calidad del aire aceptable, tomar precauciones normales"], []) in
  let for_schools :=
    if Py.str_in "schools" vulnerable_groups then
      if no2_level >? 70 then
        ["Suspender educación física al aire libre";
         "Mantener estudiantes en interiores durante recreo";
         "Activar sistema de purificación de aire en aulas"]
      else if no2_level >? 50 then
        ["Reducir tiempo de actividades al aire libre";
         "Monitorear estudiantes con asma o condiciones respiratorias"]
      else []
    else [] in
  let for_elderly :=
    if Py.str_in "elderly" vulnerable_groups then
      if no2_level >? 60 then
        ["Evitar salidas no esenciales";
         "Realizar ejercicios en interiores";
         "Monitorear síntomas respiratorios"]
      else if no2_level >? 50 then
        ["Limitar tiempo al aire libre";
         "Tener medicamentos respiratorios a mano"]
      else []
    else [] in
  let for_health_centers :=
    if Py.str_in "hospitals" vulnerable_groups then
      if no2_level >? 60 then
        ["Prepararse para posible aumento de casos respiratorios";
         "Revisar inventario de medicamentos para asma";
         "Alertar personal sobre condiciones ambientales"]
      else []
    else [] in
  {| general := general;
     for_schools := for_schools;
     for_elderly := for_elderly;
     for_health_centers := for_health_centers;
     immediate_actions := immediate_actions |}.

(** ** Quality label and AQI (lines 392-420) *)

Definition _calculate_quality (no2_value : Q) : string :=
  if no2_value <? 40 then "Buena"
  else if no2_value <? 80 then "Moderada"
  else if no2_value <? 120 then "Mala"
  else if no2_value <? 160 then "Muy Mala"
  else "Peligrosa".

Definition _calculate_aqi (no2_value : Q) : Z :=
  if no2_value <? 40 then Py.int (no2_value * 1.25)
  else if no2_value <? 80 then Py.int (50 + (no2_value - 40) * 1.25)
  else if no2_value <? 120 then Py.int (100 + (no2_value - 80) * 1.5)
  else if no2_value <? 160 then Py.int (150 + (no2_value - 120) * 2)
  else Py.minZ 300 (Py.int (200 + (no2_value - 160) * 2.5)).

Definition _get_weather_condition (weather_data : gmap string Q) : string :=
  let temp := default 20 (weather_data !! "temperature") in
  if temp >? 30 then "Caluroso"
  else if temp >? 20 then "Templado"
  else "Frío".

(** ** The dashboard result (lines 50-82, 454-493) *)

Record AirQuality := {
  no2_tropospheric : Q;
  pm25 : Q;
  quality_index : string;
  aqi_value : Z;
  timestamp : Z
}.

Record Weather := {
  temperature : option Q;
  wind_speed : option Q;
  humidity : option Q;
  condition : string
}.

Record TrendPoint := { date : Z; trend_no2 : Q; trend_quality : string }.

Record ForecastPoint := { hour : Z; forecast_no2 : Q; forecast_quality : string }.

Record RiskZone := { coords : Q * Q; risk : string; radius : Z }.

Record RiskMap := { center : Q * Q; risk_zones : list RiskZone }.

Record VisualizationData := {
  historical_trend : list TrendPoint;
  forecast : list ForecastPoint;
  risk_map : RiskMap
}.

Record Metadata := {
  data_source : string;
  location : Q * Q;
  last_updated : Z;
  resolution : string
}.

Record DashboardResult := {
  air_quality : AirQuality;
  weather : Weather;
  vulnerability_analysis : VulnerabilityAnalysis;
  recommendations : Recommendations;
  visualization_data : VisualizationData;
  metadata : Metadata
}.

Definition _generate_risk_map_data (lat lon : Q) : RiskMap :=
  {| center := (lat, lon);
     risk_zones :=
       [ {| coords := (lat + 0.01, lon + 0.01); risk := "high"; radius := 1000 |} ] |}.

(** ** The outside world, the processor state and the effect monad *)

Inductive exn : Set := Exception (msg : string).

Definition str (e : exn) : string := let 'Exception msg := e in msg.

Inductive outcome (A : Type) : Type :=
| Return (a : A)
| Raise (e : exn).
Arguments Return {A} a.
Arguments Raise {A} e.

(** Everything the processor reads from outside, indexed by the number of
    outside calls made so far ([tick]).  [normal_draw] is the standard
    normal sample behind each [np.random.normal] call; [http_openaq] and
    [http_weather] are what the protected block of each fetcher does
    (request, status check, JSON decoding): the dict it builds, or the
    exception it raises; [stdout_ok] tells whether a [print] succeeds. *)
Record World := {
  tick : nat;
  utc_clock : nat -> Z;
  normal_draw : nat -> Q;
  stdout_ok : nat -> bool;
  http_openaq : nat -> outcome (gmap string Q);
  http_weather : nat -> outcome (gmap string Q);
  sine : Q -> Q
}.

Definition advance (w : World) : World :=
  {| tick := S (tick w);
     utc_clock := utc_clock w;
     normal_draw := normal_draw w;
     stdout_ok := stdout_ok w;
     http_openaq := http_openaq w;
     http_weather := http_weather w;
     sine := sine w |}.

(** [self.cache]: rounded coordinates to (result, creation time). *)
Record Machine := {
  cache : gmap (Z * Z) (DashboardResult * Z);
  world : World
}.

(** [self.cache_ttl], fixed by [__init__]. *)
Definition cache_ttl : Z := 300.

Definition M (A : Type) : Type := Machine -> outcome A * Machine.

Definition ret {A} (a : A) : M A := fun m => (Return a, m).

Definition bind {A B} (c : M A) (k : A -> M B) : M B :=
  fun m => match c m with
           | (Return a, m') => k a m'
           | (Raise e, m') => (Raise e, m')
           end.

(** [try: body except Exception as e: handler e]. *)
Definition try_except {A} (body : M A) (handler : exn -> M A) : M A :=
  fun m => match body m with
           | (Return a, m') => (Return a, m')
           | (Raise e, m') => handler e m'
           end.

Notation "x <- c ;; k" := (bind c (fun x => k))
  (at level 100, c at next level, right associativity).
Notation "c ;;; k" := (bind c (fun _ => k))
  (at level 100, right associativity).

Fixpoint for_each {A B} (f : A -> M B) (l : list A) : M (list B) :=
  match l with
  | [] => ret []
  | x :: l' => y <- f x ;; ys <- for_each f l' ;; ret (y :: ys)
  end.

(** [range(n)]. *)
Definition range (n : nat) : list Z := map Z.of_nat (seq 0 n).

Definition step_world (m : Machine) : Machine :=
  {| cache := cache m; world := advance (world m) |}.

(** [datetime.utcnow()]. *)
Definition utcnow : M Z :=
  fun m => (Return (utc_clock (world m) (tick (world m))), step_world m).

(** [np.random.normal(loc, scale)]. *)
Definition np_random_normal (loc scale : Q) : M Q :=
  fun m => (Return (loc + scale * normal_draw (world m) (tick (world m))),
            step_world m).

(** [np.sin(x)]. *)
Definition np_sin (x : Q) : M Q :=
  fun m => (Return (sine (world m) x), m).

(** [print(msg)]. *)
Definition print (msg : string) : M unit :=
  fun m => (if stdout_ok (world m) (tick (world m)) then Return tt
            else Raise (Exception "print failed"),
            step_world m).

(** [self.cache[key] = v]. *)
Definition cache_store (key : Z * Z) (v : DashboardResult * Z) : M unit :=
  fun m => (Return tt, {| cache := <[key := v]> (cache m); world := world m |}).

(** [self.cache.get(key)], as the membership test and subscript of
    lines 29-30 read it. *)
Definition cache_find (key : Z * Z) : M (option (DashboardResult * Z)) :=
  fun m => (Return (cache m !! key), m).

(** [.hour] of a datetime. *)
Definition hour_of (t : Z) : Z := ((t / 3600000000) mod 24)%Z.

(** [timedelta(days=d)]. *)
Definition timedelta_days (d : Z) : Z := (d * 86400000000)%Z.

(** [.seconds] of the normalised timedelta of [delta] microseconds: the
    seconds within the day, the days being a separate field. *)
Definition timedelta_seconds (delta : Z) : Z := ((delta / 1000000) mod 86400)%Z.

(** ** Baselines, fetchers and the simulator (lines 273-378) *)

Definition _get_base_no2_for_area (lat lon : Q) (area_type : string) : M Q :=
  if String.eqb area_type "urban_center_extreme" then
    z <- np_random_normal 0 20 ;; ret (120 + z)
  else if String.eqb area_type "urban_center_high" then
    z <- np_random_normal 0 15 ;; ret (80 + z)
  else if String.eqb area_type "industrial_heavy" then
    z <- np_random_normal 0 15 ;; ret (90 + z)
  else if String.eqb area_type "urban_center" then
    z <- np_random_normal 0 12 ;; ret (60 + z)
  else if String.eqb area_type "industrial" then
    z <- np_random_normal 0 12 ;; ret (70 + z)
  else
    z <- np_random_normal 0 8 ;; ret (30 + z).

Definition _get_openaq_data (lat lon : Q) : M (gmap string Q) :=
  try_except
    (fun m => (http_openaq (world m) (tick (world m)), step_world m))
    (fun e =>
       print (String.append "Error al obtener datos de OpenAQ: " (str e)) ;;;
       ret ∅).

Definition _get_weather_data (lat lon : Q) : M (gmap string Q) :=
  try_except
    (fun m => (http_weather (world m) (tick (world m)), step_world m))
    (fun e =>
       print (String.append "Error al obtener datos meteorológicos: " (str e)) ;;;
       ret ∅).

Record TempoSimulation := { no2 : Q }.

Definition urban_factor_map : gmap string Q :=
  {[ "urban_center_extreme" := 4.5;
     "urban_center_high" := 3.2;
     "urban_center" := 2.0;
     "industrial_heavy" := 3.5;
     "industrial" := 2.5;
     "residential" := 1.0 ]}.

(** Lines 345-352: the time-of-day multiplier of the simulator. *)
Definition traffic_pattern (hour : Z) : Q :=
  if ((7 <=? hour) && (hour <=? 9) || (17 <=? hour) && (hour <=? 20))%Z then 1.8
  else if ((12 <=? hour) && (hour <=? 14))%Z then 1.3
  else if ((23 <=? hour) || (hour <=? 5))%Z then 0.6
  else 1.0.

Definition _simulate_tempo_advanced
    (lat lon : Q) (weather_data : gmap string Q) : M TempoSimulation :=
  let area_type := _classify_area lat lon in
  let urban_factor := default 1.0 (urban_factor_map !! area_type) in
  now <- utcnow ;;
  let hour := hour_of now in
  let traffic_pattern := traffic_pattern hour in
  let wind_speed := default 5 (weather_data !! "wind_speed") in
  let wind_factor :=
    if wind_speed >? 15 then 0.5
    else if wind_speed >? 10 then 0.7
    else if wind_speed >? 5 then 0.85
    else 1.0 in
  let temp := default 20 (weather_data !! "temperature") in
  let temp_factor :=
    if temp <? 10 then 1.3
    else if temp >? 30 then 1.2
    else 1.0 in
  base_no2 <- _get_base_no2_for_area lat lon area_type ;;
  let final_no2 := base_no2 * urban_factor * traffic_pattern * wind_factor * temp_factor in
  noise <- np_random_normal 0 3 ;;
  let final_no2 := final_no2 + noise in
  ret {| no2 := Py.max 5.0 final_no2 |}.

(** Lines 380-390. *)
Definition _is_urban_area (lat lon : Q) : bool :=
  let major_cities : list (Q * Q) :=
    [ (19.43, -99.13);
      (40.7, -74.0);
      (34.0, -118.2);
      (25.7, -100.3);
      (32.5, -117.0);
      (28.6, 77.2);
      (39.9, 116.4) ] in
  existsb
    (fun city => (Qabs (lat - fst city) <? 2) && (Qabs (lon - snd city) <? 2))
    major_cities.

(** ** Trend and forecast (lines 226-271) *)

Definition _generate_historical_trend (lat lon : Q) : M (list TrendPoint) :=
  let days := 7%nat in
  let area_type := _classify_area lat lon in
  for_each
    (fun i =>
       now <- utcnow ;;
       let date := (now - timedelta_days (Z.of_nat days - i - 1))%Z in
       base_no2 <- _get_base_no2_for_area lat lon area_type ;;
       s <- np_sin (inject_Z i * 0.8) ;;
       z <- np_random_normal 0 8 ;;
       let daily_variation := s * 15 + z in
       let no2_value := Py.max 10 (base_no2 + daily_variation) in
       ret {| date := date;
              trend_no2 := Py.round no2_value 2;
              trend_quality := _calculate_quality no2_value |})
    (range days).

(** Lines 253-261: the time-of-day multiplier of the forecast. *)
Definition traffic_peak (future_hour : Z) : Q :=
  if ((7 <=? future_hour) && (future_hour <=? 9))%Z then 1.8
  else if ((17 <=? future_hour) && (future_hour <=? 20))%Z then 1.9
  else if ((12 <=? future_hour) && (future_hour <=? 14))%Z then 1.3
  else if ((23 <=? future_hour) || (future_hour <=? 5))%Z then 0.6
  else 1.0.

(** Lines 265-269: the entry appended for one hour. *)
Definition forecast_entry (future_hour : Z) (hourly_no2 : Q) : ForecastPoint :=
  {| hour := future_hour;
     forecast_no2 := Py.round (Py.max 10 hourly_no2) 2;
     forecast_quality := _calculate_quality hourly_no2 |}.

Definition _generate_forecast (lat lon : Q) : M (list ForecastPoint) :=
  now <- utcnow ;;
  let current_hour := hour_of now in
  let area_type := _classify_area lat lon in
  base_no2 <- _get_base_no2_for_area lat lon area_type ;;
  for_each
    (fun hour =>
       let future_hour := ((current_hour + hour) mod 24)%Z in
       let traffic_peak := traffic_peak future_hour in
       z <- np_random_normal 0 5 ;;
       let hourly_no2 := base_no2 * traffic_peak + z in
       ret (forecast_entry future_hour hourly_no2))
    (range 24).

(** ** The fallback dashboard (lines 450-493) *)

Definition _get_fallback_dashboard (lat lon : Q) : M DashboardResult :=
  let area_type := _classify_area lat lon in
  fallback_no2 <- _get_base_no2_for_area lat lon area_type ;;
  t1 <- utcnow ;;
  trend <- _generate_historical_trend lat lon ;;
  fc <- _generate_forecast lat lon ;;
  t2 <- utcnow ;;
  ret {| air_quality :=
           {| no2_tropospheric := Py.round fallback_no2 2;
              pm25 := 15.5;
              quality_index := _calculate_quality fallback_no2;
              aqi_value := _calculate_aqi fallback_no2;
              timestamp := t1 |};
         weather :=
           {| temperature := Some 22.0;
              wind_speed := Some 5.0;
              humidity := Some 60.0;
              condition := "Templado" |};
         vulnerability_analysis :=
           {| area_type := area_type;
              risk_level := _calculate_risk_level fallback_no2 area_type;
              vulnerable_groups := _identify_vulnerable_groups area_type;
              risk_factors := _get_risk_factors area_type fallback_no2;
              protection_priority :=
                if fallback_no2 >? 80 then "Alta" else "Media" |};
         recommendations :=
           {| general := ["Monitorear calidad del aire"; "Evitar zonas de alto tráfico"];
              for_schools := ["Limitar recreo al aire libre si la calidad empeora"];
              for_elderly := ["Tomar precauciones normales"];
              for_health_centers := ["Estar preparado para consultas respiratorias"];
              immediate_actions := [] |};
         visualization_data :=
           {| historical_trend := trend;
              forecast := fc;
              risk_map := _generate_risk_map_data lat lon |};
         metadata :=
           {| data_source := "Fallback data";
              location := (lat, lon);
              last_updated := t2;
              resolution := "2km x 5.5km" |} |}.

(** ** The orchestrator (lines 26-90) *)

(** Line 27: the two coordinates rounded to 2 decimals; the rendered key
    is determined by the two numerators over 100. *)
Definition cache_key (lat lon : Q) : Z * Z :=
  (Qnum (Py.round lat 2), Qnum (Py.round lon 2)).

(** Lines 29-32: the cached result when the key is present and fresh. *)
Definition cache_lookup (key : Z * Z) : M (option DashboardResult) :=
  entry <- cache_find key ;;
  match entry with
  | Some (cached_data, timestamp) =>
      now <- utcnow ;;
      if (timedelta_seconds (now - timestamp) <? cache_ttl)%Z
      then ret (Some cached_data)
      else ret None
  | None => ret None
  end.

(** Lines 35-86: the protected block. *)
Definition live_dashboard (lat lon : Q) : M DashboardResult :=
  openaq_data <- _get_openaq_data lat lon ;;
  weather_data <- _get_weather_data lat lon ;;
  tempo_simulation <- _simulate_tempo_advanced lat lon weather_data ;;
  let vulnerability_analysis :=
    _analyze_vulnerability lat lon (no2 tempo_simulation) in
  let recommendations :=
    _generate_recommendations
      (no2 tempo_simulation)
      (risk_level vulnerability_analysis)
      (vulnerable_groups vulnerability_analysis) in
  historical_trend <- _generate_historical_trend lat lon ;;
  t1 <- utcnow ;;
  fc <- _generate_forecast lat lon ;;
  t2 <- utcnow ;;
  let result :=
    {| air_quality :=
         {| no2_tropospheric := Py.round (no2 tempo_simulation) 2;
            pm25 := default 15.5 (openaq_data !! "pm25");
            quality_index := _calculate_quality (no2 tempo_simulation);
            aqi_value := _calculate_aqi (no2 tempo_simulation);
            timestamp := t1 |};
       weather :=
         {| temperature := weather_data !! "temperature";
            wind_speed := weather_data !! "wind_speed";
            humidity := weather_data !! "humidity";
            condition := _get_weather_condition weather_data |};
       vulnerability_analysis := vulnerability_analysis;
       recommendations := recommendations;
       visualization_data :=
         {| historical_trend := historical_trend;
            forecast := fc;
            risk_map := _generate_risk_map_data lat lon |};
       metadata :=
         {| data_source := "NASA TEMPO Simulation + OpenAQ + Open-Meteo";
            location := (lat, lon);
            last_updated := t2;
            resolution := "2km x 5.5km" |} |} in
  t3 <- utcnow ;;
  cache_store (cache_key lat lon) (result, t3) ;;;
  ret result.

Definition get_air_quality_dashboard (lat lon : Q) : M DashboardResult :=
  let cache_key := cache_key lat lon in
  hit <- cache_lookup cache_key ;;
  match hit with
  | Some cached_data => ret cached_data
  | None =>
      try_except
        (live_dashboard lat lon)
        (fun e =>
           print (String.append "Error en get_air_quality_dashboard: " (str e)) ;;;
           _get_fallback_dashboard lat lon)
  end.

(** * Properties *)

(** ** Comparisons and rounding *)

Lemma ltb_spec (x y : Q) : BoolSpec (x < y) (y <= x) (x <? y).
Proof.
  unfold Py.ltb. destruct (Z.ltb_spec (Qnum x * QDen y) (Qnum y * QDen x)).
  - constructor. exact H.
  - constructor. unfold Qle. exact H.
Qed.

Lemma ltb_true (x y : Q) : x < y -> (x <? y) = true.
Proof. intros H. destruct (ltb_spec x y) as [_ | H']; [reflexivity | lra]. Qed.

Lemma ltb_false (x y : Q) : y <= x -> (x <? y) = false.
Proof. intros H. destruct (ltb_spec x y) as [H' | _]; [lra | reflexivity]. Qed.

(** Case analysis on every rational comparison of the goal. *)
Ltac case_ltb :=
  repeat match goal with
         | |- context [Py.ltb ?a ?b] => destruct (ltb_spec a b)
         end.

Lemma int_nonneg (q : Q) : 0 <= q -> Py.int q = Qfloor q.
Proof.
  destruct q as [n d]. unfold Qle, Py.int, Qfloor. simpl. intros H.
  apply Z.quot_div_nonneg; lia.
Qed.

Lemma floor_lower (q : Q) (n : Z) : inject_Z n <= q -> (n <= Qfloor q)%Z.
Proof. intros H. rewrite <- (Qfloor_Z n). apply Qfloor_resp_le, H. Qed.

Lemma floor_upper (q : Q) (n : Z) : q < inject_Z n -> (Qfloor q < n)%Z.
Proof.
  intros H. rewrite Zlt_Qlt.
  apply Qle_lt_trans with q; [apply Qfloor_le | exact H].
Qed.

Lemma max_lower (a b : Q) : a <= Py.max a b.
Proof. unfold Py.max. case_ltb; lra. Qed.

(** ** Quality label *)

Definition quality_labels : list string :=
  ["Buena"; "Moderada"; "Mala"; "Muy Mala"; "Peligrosa"].

(** Position of a label in the order
    Buena < Moderada < Mala < Muy Mala < Peligrosa. *)
Definition severity (label : string) : nat :=
  if String.eqb label "Buena" then 0
  else if String.eqb label "Moderada" then 1
  else if String.eqb label "Mala" then 2
  else if String.eqb label "Muy Mala" then 3
  else if String.eqb label "Peligrosa" then 4
  else 5.

Lemma quality_labels_distinct : NoDup quality_labels.
Proof.
  unfold quality_labels.
  repeat (constructor;
          [intros H; apply list_elem_of_In in H; simpl in H; intuition discriminate |]).
  constructor.
Qed.

Lemma quality_thresholds (x : Q) :
  (x < 40 -> _calculate_quality x = "Buena") /\
  (40 <= x -> x < 80 -> _calculate_quality x = "Moderada") /\
  (80 <= x -> x < 120 -> _calculate_quality x = "Mala") /\
  (120 <= x -> x < 160 -> _calculate_quality x = "Muy Mala") /\
  (160 <= x -> _calculate_quality x = "Peligrosa").
Proof.
  unfold _calculate_quality.
  repeat split; intros; case_ltb; try reflexivity; lra.
Qed.

(** C9.  The quality label is total and monotonic: every concentration
    (in particular every one in [0,inf)) gets one of the five labels,
    the one fixed by the thresholds <40 Buena, <80 Moderada, <120 Mala,
    <160 Muy Mala, else Peligrosa; and for x <= y the label of x is no
    more severe than the label of y. *)
Theorem quality_total_monotonic (x y : Q) (Hxy : x <= y) :
  In (_calculate_quality x) quality_labels /\
  ((x < 40 -> _calculate_quality x = "Buena") /\
   (40 <= x -> x < 80 -> _calculate_quality x = "Moderada") /\
   (80 <= x -> x < 120 -> _calculate_quality x = "Mala") /\
   (120 <= x -> x < 160 -> _calculate_quality x = "Muy Mala") /\
   (160 <= x -> _calculate_quality x = "Peligrosa")) /\
  (severity (_calculate_quality x) <= severity (_calculate_quality y))%nat.
Proof.
  split; [| split].
  - unfold _calculate_quality, quality_labels. case_ltb; simpl; tauto.
  - apply quality_thresholds.
  - unfold _calculate_quality. case_ltb; try lra; vm_compute; lia.
Qed.

Lemma quality_total_monotonic_witness :
  39.9 <= 160 /\
  _calculate_quality 39.9 = "Buena" /\
  _calculate_quality 160 = "Peligrosa" /\
  (severity (_calculate_quality 39.9) <= severity (_calculate_quality 160))%nat.
Proof.
  assert (H : 39.9 <= 160) by (unfold Qle; simpl; lia).
  split; [exact H |].
  destruct (quality_total_monotonic 39.9 160 H) as (_ & _ & Hs).
  split; [reflexivity | split; [reflexivity | exact Hs]].
Defined.

(** ** AQI *)

(** The breakpoint table of section 4.2, as the specification words it:
    the linear value of each band, made an integer and clamped to
    [0,300]. *)
Definition aqi_table (x : Q) : Z :=
  let linear :=
    if x <? 40 then Qfloor (1.25 * x)
    else if x <? 80 then Qfloor (50 + 1.25 * (x - 40))
    else if x <? 120 then Qfloor (100 + 1.5 * (x - 80))
    else if x <? 160 then Qfloor (150 + 2 * (x - 120))
    else Z.min 300 (Qfloor (200 + 2.5 * (x - 160))) in
  Z.max 0 (Z.min 300 linear).

(** The stretches on which the table does not step down: below 120,
    from 120 to below 160, and from 160 on. *)
Definition aqi_stretch (x : Q) : nat :=
  if x <? 120 then 0 else if x <? 160 then 1 else 2.

Lemma aqi_band_0_40 (x : Q) :
  0 <= x -> x < 40 -> _calculate_aqi x = Qfloor (x * 1.25).
Proof.
  intros H0 H1. unfold _calculate_aqi.
  rewrite (ltb_true x 40) by lra. apply int_nonneg. lra.
Qed.

Lemma aqi_band_40_80 (x : Q) :
  40 <= x -> x < 80 -> _calculate_aqi x = Qfloor (50 + (x - 40) * 1.25).
Proof.
  intros H0 H1. unfold _calculate_aqi.
  rewrite (ltb_false x 40), (ltb_true x 80) by lra. apply int_nonneg. lra.
Qed.

Lemma aqi_band_80_120 (x : Q) :
  80 <= x -> x < 120 -> _calculate_aqi x = Qfloor (100 + (x - 80) * 1.5).
Proof.
  intros H0 H1. unfold _calculate_aqi.
  rewrite (ltb_false x 40), (ltb_false x 80), (ltb_true x 120) by lra.
  apply int_nonneg. lra.
Qed.

Lemma aqi_band_120_160 (x : Q) :
  120 <= x -> x < 160 -> _calculate_aqi x = Qfloor (150 + (x - 120) * 2).
Proof.
  intros H0 H1. unfold _calculate_aqi.
  rewrite (ltb_false x 40), (ltb_false x 80), (ltb_false x 120),
    (ltb_true x 160) by lra.
  apply int_nonneg. lra.
Qed.

Lemma aqi_band_160 (x : Q) :
  160 <= x -> _calculate_aqi x = Z.min 300 (Qfloor (200 + (x - 160) * 2.5)).
Proof.
  intros H0. unfold _calculate_aqi.
  rewrite (ltb_false x 40), (ltb_false x 80), (ltb_false x 120),
    (ltb_false x 160) by lra.
  rewrite int_nonneg by lra. unfold Py.minZ.
  destruct (Z.ltb_spec (Qfloor (200 + (x - 160) * 2.5)) 300); lia.
Qed.

Lemma aqi_bands (x : Q) :
  0 <= x ->
  (x < 40 -> (0 <= _calculate_aqi x < 50)%Z) /\
  (40 <= x -> x < 80 -> (50 <= _calculate_aqi x < 100)%Z) /\
  (80 <= x -> x < 120 -> (100 <= _calculate_aqi x < 160)%Z) /\
  (120 <= x -> x < 160 -> (150 <= _calculate_aqi x < 230)%Z) /\
  (160 <= x -> (200 <= _calculate_aqi x <= 300)%Z).
Proof.
  intros H0. repeat apply conj; intros.
  - rewrite aqi_band_0_40 by lra.
    split; [apply floor_lower | apply floor_upper]; unfold inject_Z; lra.
  - rewrite aqi_band_40_80 by lra.
    split; [apply floor_lower | apply floor_upper]; unfold inject_Z; lra.
  - rewrite aqi_band_80_120 by lra.
    split; [apply floor_lower | apply floor_upper]; unfold inject_Z; lra.
  - rewrite aqi_band_120_160 by lra.
    split; [apply floor_lower | apply floor_upper]; unfold inject_Z; lra.
  - rewrite aqi_band_160 by lra.
    assert (200 <= Qfloor (200 + (x - 160) * 2.5))%Z
      by (apply floor_lower; unfold inject_Z; lra).
    lia.
Qed.

Lemma aqi_follows_table (x : Q) : 0 <= x -> _calculate_aqi x = aqi_table x.
Proof.
  intros H0. pose proof (aqi_bands x H0) as (B1 & B2 & B3 & B4 & B5).
  unfold aqi_table. case_ltb.
  - specialize (B1 ltac:(lra)). rewrite aqi_band_0_40 in * by lra.
    rewrite (Qfloor_comp (1.25 * x) (x * 1.25)) by ring. lia.
  - specialize (B2 ltac:(lra) ltac:(lra)). rewrite aqi_band_40_80 in * by lra.
    rewrite (Qfloor_comp (50 + 1.25 * (x - 40)) (50 + (x - 40) * 1.25)) by ring.
    lia.
  - specialize (B3 ltac:(lra) ltac:(lra)). rewrite aqi_band_80_120 in * by lra.
    rewrite (Qfloor_comp (100 + 1.5 * (x - 80)) (100 + (x - 80) * 1.5)) by ring.
    lia.
  - specialize (B4 ltac:(lra) ltac:(lra)). rewrite aqi_band_120_160 in * by lra.
    rewrite (Qfloor_comp (150 + 2 * (x - 120)) (150 + (x - 120) * 2)) by ring.
    lia.
  - specialize (B5 ltac:(lra)). rewrite aqi_band_160 in * by lra.
    rewrite (Qfloor_comp (200 + 2.5 * (x - 160)) (200 + (x - 160) * 2.5)) by ring.
    lia.
Qed.

Lemma aqi_monotone_on_stretch (x y : Q) :
  0 <= x -> x <= y -> aqi_stretch x = aqi_stretch y ->
  (_calculate_aqi x <= _calculate_aqi y)%Z.
Proof.
  intros H0 Hxy Hs.
  assert (Hy0 : 0 <= y) by lra.
  destruct (aqi_bands x H0) as (X1 & X2 & X3 & X4 & X5).
  destruct (aqi_bands y Hy0) as (Y1 & Y2 & Y3 & Y4 & Y5).
  unfold aqi_stretch in Hs.
  destruct (Qlt_le_dec x 40) as [x40 | x40];
    destruct (Qlt_le_dec x 80) as [x80 | x80]; try lra;
    destruct (Qlt_le_dec x 120) as [x120 | x120]; try lra;
    destruct (Qlt_le_dec x 160) as [x160 | x160]; try lra;
    destruct (Qlt_le_dec y 40) as [y40 | y40]; try lra;
    destruct (Qlt_le_dec y 80) as [y80 | y80]; try lra;
    destruct (Qlt_le_dec y 120) as [y120 | y120]; try lra;
    destruct (Qlt_le_dec y 160) as [y160 | y160]; try lra;
    repeat first [ rewrite (ltb_true x 120) in Hs by lra
                 | rewrite (ltb_false x 120) in Hs by lra
                 | rewrite (ltb_true x 160) in Hs by lra
                 | rewrite (ltb_false x 160) in Hs by lra
                 | rewrite (ltb_true y 120) in Hs by lra
                 | rewrite (ltb_false y 120) in Hs by lra
                 | rewrite (ltb_true y 160) in Hs by lra
                 | rewrite (ltb_false y 160) in Hs by lra ];
    try discriminate Hs;
    first
      [ rewrite !aqi_band_0_40 by lra; apply Qfloor_resp_le; lra
      | rewrite !aqi_band_40_80 by lra; apply Qfloor_resp_le; lra
      | rewrite !aqi_band_80_120 by lra; apply Qfloor_resp_le; lra
      | rewrite !aqi_band_120_160 by lra; apply Qfloor_resp_le; lra
      | rewrite !aqi_band_160 by lra;
        apply Z.min_le_compat_l, Qfloor_resp_le; lra
      | repeat match goal with
               | H : _ -> _ |- _ =>
                   first [ specialize (H ltac:(lra)) | clear H ]
               end; lia ].
Qed.

(** C1 (as the code has it).  For every non-negative concentration the
    AQI lies in [0,300] and is the value of the breakpoint table of
    section 4.2; AQI(200) = 300; and the AQI is non-decreasing on each
    of the stretches [0,120), [120,160) and [160,inf).  (It steps down
    at 120 and at 160, so it is not non-decreasing overall.) *)
Theorem aqi_bounded_table_stretchwise
    (x y : Q) (H0 : 0 <= x) (Hxy : x <= y)
    (Hs : aqi_stretch x = aqi_stretch y) :
  (0 <= _calculate_aqi x <= 300)%Z /\
  _calculate_aqi 200 = 300%Z /\
  _calculate_aqi x = aqi_table x /\
  (_calculate_aqi x <= _calculate_aqi y)%Z.
Proof.
  split; [| split; [reflexivity | split]].
  - destruct (aqi_bands x H0) as (X1 & X2 & X3 & X4 & X5).
    destruct (Qlt_le_dec x 40); [specialize (X1 ltac:(lra)); lia |].
    destruct (Qlt_le_dec x 80); [specialize (X2 ltac:(lra) ltac:(lra)); lia |].
    destruct (Qlt_le_dec x 120); [specialize (X3 ltac:(lra) ltac:(lra)); lia |].
    destruct (Qlt_le_dec x 160); [specialize (X4 ltac:(lra) ltac:(lra)); lia |].
    specialize (X5 ltac:(lra)); lia.
  - apply aqi_follows_table, H0.
  - apply aqi_monotone_on_stretch; assumption.
Qed.

Lemma aqi_bounded_table_stretchwise_witness :
  0 <= 39.9 /\ 39.9 <= 100 /\ aqi_stretch 39.9 = aqi_stretch 100 /\
  _calculate_aqi 39.9 = 49%Z /\ _calculate_aqi 100 = 130%Z /\
  (_calculate_aqi 39.9 <= _calculate_aqi 100)%Z.
Proof.
  assert (H0 : 0 <= 39.9) by (unfold Qle; simpl; lia).
  assert (Hxy : 39.9 <= 100) by (unfold Qle; simpl; lia).
  assert (Hs : aqi_stretch 39.9 = aqi_stretch 100) by reflexivity.
  destruct (aqi_bounded_table_stretchwise 39.9 100 H0 Hxy Hs) as (_ & _ & _ & Hm).
  split; [exact H0 | split; [exact Hxy | split; [exact Hs |]]].
  split; [reflexivity | split; [reflexivity | exact Hm]].
Defined.

(** C1 as stated fails: the AQI is not non-decreasing.  At 119 the third
    band gives int(100 + 39 * 1.5) = 158, at 120 the fourth band starts
    again from 150. *)
Lemma aqi_not_monotone :
  119 <= 120 /\ 0 <= 119 /\
  _calculate_aqi 119 = 158%Z /\ _calculate_aqi 120 = 150%Z /\
  ~ (_calculate_aqi 119 <= _calculate_aqi 120)%Z.
Proof.
  split; [unfold Qle; simpl; lia |].
  split; [unfold Qle; simpl; lia |].
  split; [reflexivity | split; [reflexivity |]].
  vm_compute. intros H. apply H. reflexivity.
Qed.

(** ** Risk level and vulnerable groups *)

Lemma base_risk_cases (x : Q) :
  (150 < x /\ base_risk x = "Muy Alto") \/
  (100 < x /\ x <= 150 /\ base_risk x = "Alto") \/
  (50 < x /\ x <= 100 /\ base_risk x = "Moderado") \/
  (x <= 50 /\ base_risk x = "Bajo").
Proof.
  unfold base_risk. case_ltb.
  - left. split; [lra | reflexivity].
  - right; left. repeat split; (lra || reflexivity).
  - right; right; left. repeat split; (lra || reflexivity).
  - right; right; right. split; [lra | reflexivity].
Qed.

(** C7.  The escalation table: in urban_center_extreme and
    industrial_heavy areas base risk Bajo becomes Moderado, Moderado
    becomes Alto, Alto becomes Muy Alto and Muy Alto stays; in
    urban_center_high and industrial areas only Bajo becomes Moderado and
    Moderado becomes Alto; urban_center_extreme at concentration 60
    (base Moderado) yields Alto. *)
Theorem risk_level_escalation (no2_level : Q) (area : string) :
  (In area ["urban_center_extreme"; "industrial_heavy"] ->
     (base_risk no2_level = "Bajo" ->
        _calculate_risk_level no2_level area = "Moderado") /\
     (base_risk no2_level = "Moderado" ->
        _calculate_risk_level no2_level area = "Alto") /\
     (base_risk no2_level = "Alto" ->
        _calculate_risk_level no2_level area = "Muy Alto") /\
     (base_risk no2_level = "Muy Alto" ->
        _calculate_risk_level no2_level area = "Muy Alto")) /\
  (In area ["urban_center_high"; "industrial"] ->
     (base_risk no2_level = "Bajo" ->
        _calculate_risk_level no2_level area = "Moderado") /\
     (base_risk no2_level = "Moderado" ->
        _calculate_risk_level no2_level area = "Alto") /\
     (base_risk no2_level = "Alto" ->
        _calculate_risk_level no2_level area = "Alto") /\
     (base_risk no2_level = "Muy Alto" ->
        _calculate_risk_level no2_level area = "Muy Alto")) /\
  base_risk 60 = "Moderado" /\
  _calculate_risk_level 60 "urban_center_extreme" = "Alto".
Proof.
  split; [| split; [| split; reflexivity]].
  - intros [<- | [<- | []]]; unfold _calculate_risk_level; simpl;
      repeat split; intros ->; reflexivity.
  - intros [<- | [<- | []]]; unfold _calculate_risk_level; simpl;
      repeat split; intros ->; reflexivity.
Qed.

Lemma risk_level_escalation_witness :
  In "industrial_heavy" ["urban_center_extreme"; "industrial_heavy"] /\
  base_risk 120 = "Alto" /\
  _calculate_risk_level 120 "industrial_heavy" = "Muy Alto" /\
  In "industrial" ["urban_center_high"; "industrial"] /\
  _calculate_risk_level 120 "industrial" = "Alto".
Proof.
  assert (Hh : In "industrial_heavy" ["urban_center_extreme"; "industrial_heavy"])
    by (simpl; tauto).
  assert (Hi : In "industrial" ["urban_center_high"; "industrial"])
    by (simpl; tauto).
  assert (Hb : base_risk 120 = "Alto") by reflexivity.
  destruct (risk_level_escalation 120 "industrial_heavy") as (Hfull & _).
  destruct (risk_level_escalation 120 "industrial") as (_ & Hpart & _).
  destruct (Hfull Hh) as (_ & _ & Hfull3 & _).
  destruct (Hpart Hi) as (_ & _ & Hpart3 & _).
  split; [exact Hh | split; [exact Hb | split; [exact (Hfull3 Hb) |]]].
  split; [exact Hi | exact (Hpart3 Hb)].
Defined.

Lemma classify_area_closed (lat lon : Q) :
  exists a : AreaType, _classify_area lat lon = area_name a.
Proof.
  unfold _classify_area.
  repeat match goal with
         | |- context [if ?b then _ else _] => destruct b
         end;
    first [ now exists urban_center | now exists urban_center_high
          | now exists urban_center_extreme | now exists industrial
          | now exists industrial_heavy | now exists residential ].
Qed.

(** C10.  For every area type the vulnerable groups contain children,
    elderly, asthmatics and schools, so the school and elderly rules of
    the recommendations apply in every classified area: those two lists
    are fixed by the concentration tiers alone. *)
Theorem groups_always_reach_schools_and_elderly
    (a : AreaType) (lat lon no2_level : Q) (risk : string) :
  let groups := _identify_vulnerable_groups (area_name a) in
  let located := _identify_vulnerable_groups (_classify_area lat lon) in
  (In "children" groups /\ In "elderly" groups /\
   In "asthmatics" groups /\ In "schools" groups) /\
  (Py.str_in "schools" located = true /\ Py.str_in "elderly" located = true) /\
  for_schools (_generate_recommendations no2_level risk located) =
    (if no2_level >? 70 then
       ["Suspender educación física al aire libre";
        "Mantener estudiantes en interiores durante recreo";
        "Activar sistema de purificación de aire en aulas"]
     else if no2_level >? 50 then
       ["Reducir tiempo de actividades al aire libre";
        "Monitorear estudiantes con asma o condiciones respiratorias"]
     else []) /\
  for_elderly (_generate_recommendations no2_level risk located) =
    (if no2_level >? 60 then
       ["Evitar salidas no esenciales";
        "Realizar ejercicios en interiores";
        "Monitorear síntomas respiratorios"]
     else if no2_level >? 50 then
       ["Limitar tiempo al aire libre";
        "Tener medicamentos respiratorios a mano"]
     else []).
Proof.
  intros groups located.
  split.
  - subst groups. destruct a; simpl; tauto.
  - subst located. destruct (classify_area_closed lat lon) as [b ->].
    assert (Hs : Py.str_in "schools" (_identify_vulnerable_groups (area_name b)) = true)
      by (destruct b; reflexivity).
    assert (He : Py.str_in "elderly" (_identify_vulnerable_groups (area_name b)) = true)
      by (destruct b; reflexivity).
    split; [split; assumption |].
    unfold _generate_recommendations.
    destruct (if no2_level >? 80 then _ else _) as [g i].
    simpl. rewrite Hs, He. split; reflexivity.
Qed.

(** ** Running the effects *)

(** A computation that always returns. *)
Definition returns {A} (c : M A) : Prop :=
  forall m, exists a m', c m = (Return a, m').

(** A computation that never touches the cache, whatever its outcome. *)
Definition keeps_cache {A} (c : M A) : Prop :=
  forall m, cache (snd (c m)) = cache m.

Create HintDb effects.

Lemma bind_run {A B} (c : M A) (k : A -> M B) (m m' : Machine) (a : A) :
  c m = (Return a, m') -> bind c k m = k a m'.
Proof. intros H. unfold bind. rewrite H. reflexivity. Qed.

Lemma bind_inv {A B} (c : M A) (k : A -> M B) (m m' : Machine) (b : B) :
  bind c k m = (Return b, m') ->
  exists a m1, c m = (Return a, m1) /\ k a m1 = (Return b, m').
Proof.
  unfold bind. destruct (c m) as [[a | e] m1]; intros H.
  - exists a, m1. split; [reflexivity | exact H].
  - discriminate H.
Qed.

Lemma returns_ret {A} (a : A) : returns (ret a).
Proof. intros m. exists a, m. reflexivity. Qed.

Lemma returns_bind {A B} (c : M A) (k : A -> M B) :
  returns c -> (forall a, returns (k a)) -> returns (bind c k).
Proof.
  intros Hc Hk m. destruct (Hc m) as (a & m1 & E).
  destruct (Hk a m1) as (b & m2 & E2).
  exists b, m2. rewrite (bind_run _ _ _ _ _ E). exact E2.
Qed.

Lemma returns_for_each {A B} (f : A -> M B) (l : list A) :
  (forall x, returns (f x)) -> returns (for_each f l).
Proof.
  intros Hf. induction l as [| x l IH]; simpl.
  - apply returns_ret.
  - apply returns_bind; [apply Hf |]. intros y.
    apply returns_bind; [exact IH |]. intros ys. apply returns_ret.
Qed.

Lemma keeps_cache_ret {A} (a : A) : keeps_cache (ret a).
Proof. intros m. reflexivity. Qed.

Lemma keeps_cache_bind {A B} (c : M A) (k : A -> M B) :
  keeps_cache c -> (forall a, keeps_cache (k a)) -> keeps_cache (bind c k).
Proof.
  intros Hc Hk m. unfold bind. specialize (Hc m).
  destruct (c m) as [[a | e] m1]; simpl in *.
  - rewrite (Hk a m1). exact Hc.
  - exact Hc.
Qed.

Lemma keeps_cache_try_except {A} (body : M A) (handler : exn -> M A) :
  keeps_cache body -> (forall e, keeps_cache (handler e)) ->
  keeps_cache (try_except body handler).
Proof.
  intros Hb Hh m. unfold try_except. specialize (Hb m).
  destruct (body m) as [[a | e] m1]; simpl in *.
  - exact Hb.
  - rewrite (Hh e m1). exact Hb.
Qed.

Lemma keeps_cache_for_each {A B} (f : A -> M B) (l : list A) :
  (forall x, keeps_cache (f x)) -> keeps_cache (for_each f l).
Proof.
  intros Hf. induction l as [| x l IH]; simpl.
  - apply keeps_cache_ret.
  - apply keeps_cache_bind; [apply Hf |]. intros y.
    apply keeps_cache_bind; [exact IH |]. intros ys. apply keeps_cache_ret.
Qed.

Lemma returns_utcnow : returns utcnow.
Proof. intros m. eexists _, _. reflexivity. Qed.

Lemma returns_normal (loc scale : Q) : returns (np_random_normal loc scale).
Proof. intros m. eexists _, _. reflexivity. Qed.

Lemma returns_sin (x : Q) : returns (np_sin x).
Proof. intros m. eexists _, _. reflexivity. Qed.

Lemma keeps_cache_utcnow : keeps_cache utcnow.
Proof. intros m. reflexivity. Qed.

Lemma keeps_cache_normal (loc scale : Q) : keeps_cache (np_random_normal loc scale).
Proof. intros m. reflexivity. Qed.

Lemma keeps_cache_sin (x : Q) : keeps_cache (np_sin x).
Proof. intros m. reflexivity. Qed.

Lemma keeps_cache_print (msg : string) : keeps_cache (print msg).
Proof. intros m. reflexivity. Qed.

Lemma keeps_cache_find (key : Z * Z) : keeps_cache (cache_find key).
Proof. intros m. reflexivity. Qed.

#[local] Hint Resolve returns_ret returns_utcnow returns_normal returns_sin
  keeps_cache_ret keeps_cache_utcnow keeps_cache_normal keeps_cache_sin
  keeps_cache_print keeps_cache_find : effects.

(** Breaks a goal about a composed computation into its steps. *)
Ltac effects :=
  repeat first
    [ progress intros
    | apply returns_bind | apply returns_for_each
    | apply keeps_cache_bind | apply keeps_cache_try_except
    | apply keeps_cache_for_each
    | solve [auto with effects]
    | match goal with
      | |- returns (if ?b then _ else _) => destruct b
      | |- keeps_cache (if ?b then _ else _) => destruct b
      end ].

(** The baseline draw: the mean and spread of the area and one sample. *)
Definition area_mean_spread (area_type : string) : Q * Q :=
  if String.eqb area_type "urban_center_extreme" then (120, 20)
  else if String.eqb area_type "urban_center_high" then (80, 15)
  else if String.eqb area_type "industrial_heavy" then (90, 15)
  else if String.eqb area_type "urban_center" then (60, 12)
  else if String.eqb area_type "industrial" then (70, 12)
  else (30, 8).

Lemma base_no2_run (lat lon : Q) (area_type : string) (m : Machine) :
  _get_base_no2_for_area lat lon area_type m =
    (Return (fst (area_mean_spread area_type) +
             (0 + snd (area_mean_spread area_type) *
                    normal_draw (world m) (tick (world m)))),
     step_world m).
Proof.
  unfold _get_base_no2_for_area, area_mean_spread.
  repeat match goal with
         | |- context [String.eqb ?a ?b] => destruct (String.eqb a b)
         end; reflexivity.
Qed.

Lemma returns_base_no2 (lat lon : Q) (area_type : string) :
  returns (_get_base_no2_for_area lat lon area_type).
Proof. intros m. eexists _, _. apply base_no2_run. Qed.

Lemma keeps_cache_base_no2 (lat lon : Q) (area_type : string) :
  keeps_cache (_get_base_no2_for_area lat lon area_type).
Proof. intros m. rewrite base_no2_run. reflexivity. Qed.

#[local] Hint Resolve returns_base_no2 keeps_cache_base_no2 : effects.

Lemma returns_trend (lat lon : Q) : returns (_generate_historical_trend lat lon).
Proof. unfold _generate_historical_trend. effects. Qed.

Lemma keeps_cache_trend (lat lon : Q) :
  keeps_cache (_generate_historical_trend lat lon).
Proof. unfold _generate_historical_trend. effects. Qed.

Lemma returns_forecast (lat lon : Q) : returns (_generate_forecast lat lon).
Proof. unfold _generate_forecast. effects. Qed.

Lemma keeps_cache_forecast (lat lon : Q) :
  keeps_cache (_generate_forecast lat lon).
Proof. unfold _generate_forecast. effects. Qed.

Lemma returns_simulate (lat lon : Q) (weather_data : gmap string Q) :
  returns (_simulate_tempo_advanced lat lon weather_data).
Proof. unfold _simulate_tempo_advanced. effects. Qed.

Lemma keeps_cache_simulate (lat lon : Q) (weather_data : gmap string Q) :
  keeps_cache (_simulate_tempo_advanced lat lon weather_data).
Proof. unfold _simulate_tempo_advanced. effects. Qed.

Lemma keeps_cache_openaq (lat lon : Q) : keeps_cache (_get_openaq_data lat lon).
Proof. unfold _get_openaq_data. effects. Qed.

Lemma keeps_cache_weather (lat lon : Q) : keeps_cache (_get_weather_data lat lon).
Proof. unfold _get_weather_data. effects. Qed.

#[local] Hint Resolve returns_trend keeps_cache_trend returns_forecast
  keeps_cache_forecast returns_simulate keeps_cache_simulate
  keeps_cache_openaq keeps_cache_weather : effects.

Lemma returns_fallback (lat lon : Q) : returns (_get_fallback_dashboard lat lon).
Proof. unfold _get_fallback_dashboard. effects. Qed.

Lemma keeps_cache_fallback (lat lon : Q) :
  keeps_cache (_get_fallback_dashboard lat lon).
Proof. unfold _get_fallback_dashboard. effects. Qed.

(** ** The simulator's floor *)

(** C6.  For every coordinate, weather snapshot and state of the world
    (so for every sampled noise), the simulator returns, and the
    concentration it returns is at least 5.0. *)
Theorem simulated_concentration_at_least_5
    (lat lon : Q) (weather_data : gmap string Q) (m : Machine) :
  exists sim m',
    _simulate_tempo_advanced lat lon weather_data m = (Return sim, m') /\
    5.0 <= no2 sim.
Proof.
  unfold _simulate_tempo_advanced.
  destruct (returns_utcnow m) as (now & m1 & E1).
  rewrite (bind_run _ _ _ _ _ E1).
  rewrite (bind_run _ _ _ _ _ (base_no2_run lat lon _ m1)).
  destruct (returns_normal 0 3 (step_world m1)) as (noise & m2 & E2).
  rewrite (bind_run _ _ _ _ _ E2).
  eexists _, _. split; [reflexivity |].
  simpl. apply max_lower.
Qed.

Lemma simulate_returns_floored
    (lat lon : Q) (weather_data : gmap string Q) (m : Machine) :
  exists sim m',
    _simulate_tempo_advanced lat lon weather_data m = (Return sim, m') /\
    5.0 <= no2 sim.
Proof.
  destruct (returns_simulate lat lon weather_data m) as (sim & m' & E).
  exists sim, m'. split; [exact E |].
  unfold _simulate_tempo_advanced in E.
  apply bind_inv in E as (now & m1 & _ & E).
  apply bind_inv in E as (base & m2 & _ & E).
  apply bind_inv in E as (noise & m3 & _ & E).
  injection E as <- _. cbn [no2]. apply max_lower.
Qed.

(** ** Protection priority *)

Lemma live_dashboard_vulnerability (lat lon : Q) (m m' : Machine) (r : DashboardResult) :
  live_dashboard lat lon m = (Return r, m') ->
  exists no2_level,
    5.0 <= no2_level /\
    vulnerability_analysis r = _analyze_vulnerability lat lon no2_level /\
    recommendations r =
      _generate_recommendations no2_level
        (risk_level (vulnerability_analysis r))
        (vulnerable_groups (vulnerability_analysis r)) /\
    data_source (metadata r) = "NASA TEMPO Simulation + OpenAQ + Open-Meteo".
Proof.
  unfold live_dashboard. intros H.
  unfold bind at 1 in H.
  destruct (_get_openaq_data lat lon m) as [[openaq_data | e] m1]; [| discriminate].
  unfold bind at 1 in H.
  destruct (_get_weather_data lat lon m1) as [[weather_data | e] m2]; [| discriminate].
  destruct (simulate_returns_floored lat lon weather_data m2)
    as (sim & m3 & E3 & Hsim).
  rewrite (bind_run _ _ _ _ _ E3) in H.
  destruct (returns_trend lat lon m3) as (trend & m4 & E4).
  rewrite (bind_run _ _ _ _ _ E4) in H.
  destruct (returns_utcnow m4) as (t1 & m5 & E5).
  rewrite (bind_run _ _ _ _ _ E5) in H.
  destruct (returns_forecast lat lon m5) as (fc & m6 & E6).
  rewrite (bind_run _ _ _ _ _ E6) in H.
  destruct (returns_utcnow m6) as (t2 & m7 & E7).
  rewrite (bind_run _ _ _ _ _ E7) in H.
  destruct (returns_utcnow m7) as (t3 & m8 & E8).
  rewrite (bind_run _ _ _ _ _ E8) in H.
  unfold bind, cache_store, ret in H. injection H as <- _.
  exists (no2 sim). repeat split. exact Hsim.
Qed.

Lemma fallback_run (lat lon : Q) (m : Machine) :
  let area_type := _classify_area lat lon in
  exists fallback_no2 m1 t1 m2 trend m3 fc m4 t2 m5,
    _get_base_no2_for_area lat lon area_type m = (Return fallback_no2, m1) /\
    utcnow m1 = (Return t1, m2) /\
    _generate_historical_trend lat lon m2 = (Return trend, m3) /\
    _generate_forecast lat lon m3 = (Return fc, m4) /\
    utcnow m4 = (Return t2, m5) /\
    _get_fallback_dashboard lat lon m =
      (Return
         {| air_quality :=
              {| no2_tropospheric := Py.round fallback_no2 2;
                 pm25 := 15.5;
                 quality_index := _calculate_quality fallback_no2;
                 aqi_value := _calculate_aqi fallback_no2;
                 timestamp := t1 |};
            weather :=
              {| temperature := Some 22.0;
                 wind_speed := Some 5.0;
                 humidity := Some 60.0;
                 condition := "Templado" |};
            vulnerability_analysis :=
              {| area_type := area_type;
                 vulnerable_groups := _identify_vulnerable_groups area_type;
                 risk_level := _calculate_risk_level fallback_no2 area_type;
                 risk_factors := _get_risk_factors area_type fallback_no2;
                 protection_priority :=
                   if fallback_no2 >? 80 then "Alta" else "Media" |};
            recommendations :=
              {| general :=
                   ["Monitorear calidad del aire"; "Evitar zonas de alto tráfico"];
                 for_schools :=
                   ["Limitar recreo al aire libre si la calidad empeora"];
                 for_elderly := ["Tomar precauciones normales"];
                 for_health_centers :=
                   ["Estar preparado para consultas respiratorias"];
                 immediate_actions := [] |};
            visualization_data :=
              {| historical_trend := trend;
                 forecast := fc;
                 risk_map := _generate_risk_map_data lat lon |};
            metadata :=
              {| data_source := "Fallback data";
                 location := (lat, lon);
                 last_updated := t2;
                 resolution := "2km x 5.5km" |} |},
       m5).
Proof.
  intros area_type. unfold _get_fallback_dashboard. fold area_type.
  destruct (returns_base_no2 lat lon area_type m) as (x & m1 & E1).
  destruct (returns_utcnow m1) as (t1 & m2 & E2).
  destruct (returns_trend lat lon m2) as (trend & m3 & E3).
  destruct (returns_forecast lat lon m3) as (fc & m4 & E4).
  destruct (returns_utcnow m4) as (t2 & m5 & E5).
  exists x, m1, t1, m2, trend, m3, fc, m4, t2, m5.
  repeat (split; [assumption |]).
  rewrite (bind_run _ _ _ _ _ E1), (bind_run _ _ _ _ _ E2),
    (bind_run _ _ _ _ _ E3), (bind_run _ _ _ _ _ E4), (bind_run _ _ _ _ _ E5).
  reflexivity.
Qed.

Lemma str_in_In (s : string) (l : list string) : Py.str_in s l = true <-> In s l.
Proof.
  unfold Py.str_in. rewrite existsb_exists. split.
  - intros (x & Hx & E). apply String.eqb_eq in E. subst x. exact Hx.
  - intros H. exists s. split; [exact H | apply String.eqb_refl].
Qed.

Lemma analyze_priority (lat lon no2_level : Q) :
  let va := _analyze_vulnerability lat lon no2_level in
  (In (risk_level va) ["Alto"; "Muy Alto"] -> protection_priority va = "Alta") /\
  (~ In (risk_level va) ["Alto"; "Muy Alto"] -> protection_priority va = "Media").
Proof.
  unfold _analyze_vulnerability. cbn [risk_level protection_priority].
  set (rl := _calculate_risk_level _ _).
  destruct (Py.str_in rl ["Alto"; "Muy Alto"]) eqn:E.
  - split; [reflexivity |]. intros Hn. apply str_in_In in E. contradiction.
  - split; [| reflexivity]. intros Hi. apply str_in_In in Hi. congruence.
Qed.

(** A world in which nothing fails: the clock always reads [now], every
    standard-normal sample is [z], printing works and both fetchers
    find nothing. *)
Definition steady_world (now : Z) (z : Q) : World :=
  {| tick := 0;
     utc_clock := fun _ => now;
     normal_draw := fun _ => z;
     stdout_ok := fun _ => true;
     http_openaq := fun _ => Return ∅;
     http_weather := fun _ => Return ∅;
     sine := fun _ => 0 |}.

Definition fresh_machine (w : World) : Machine := {| cache := ∅; world := w |}.

(** C4 (as the code has it).  On the live path the protection priority
    is Alta exactly when the risk level is Alto or Muy Alto, and Media
    otherwise.  On the fallback path the priority is read off the
    simulated concentration instead: Alta when it exceeds 80, Media
    otherwise, next to a risk level computed from that concentration. *)
Theorem protection_priority_by_path (lat lon : Q) (m : Machine) :
  (forall r m', live_dashboard lat lon m = (Return r, m') ->
     let va := vulnerability_analysis r in
     (In (risk_level va) ["Alto"; "Muy Alto"] -> protection_priority va = "Alta") /\
     (~ In (risk_level va) ["Alto"; "Muy Alto"] -> protection_priority va = "Media")) /\
  (exists fallback_no2 m1 r m',
     _get_base_no2_for_area lat lon (_classify_area lat lon) m =
       (Return fallback_no2, m1) /\
     _get_fallback_dashboard lat lon m = (Return r, m') /\
     let va := vulnerability_analysis r in
     risk_level va = _calculate_risk_level fallback_no2 (_classify_area lat lon) /\
     (80 < fallback_no2 -> protection_priority va = "Alta") /\
     (fallback_no2 <= 80 -> protection_priority va = "Media")).
Proof.
  split.
  - intros r m' H.
    destruct (live_dashboard_vulnerability lat lon m m' r H) as (x & _ & -> & _).
    apply analyze_priority.
  - destruct (fallback_run lat lon m)
      as (x & m1 & t1 & m2 & trend & m3 & fc & m4 & t2 & m5 & E1 & _ & _ & _ & _ & E).
    eexists x, m1, _, m5. split; [exact E1 |]. split; [exact E |].
    cbn [vulnerability_analysis risk_level protection_priority].
    split; [reflexivity |].
    split; intros Hx.
    + rewrite ltb_true by exact Hx. reflexivity.
    + rewrite ltb_false by exact Hx. reflexivity.
Qed.

Lemma protection_priority_by_path_witness :
  match live_dashboard 0 0 (fresh_machine (steady_world 36000000000 10)) with
  | (Return r, _) =>
      In (risk_level (vulnerability_analysis r)) ["Alto"; "Muy Alto"] /\
      protection_priority (vulnerability_analysis r) = "Alta"
  | (Raise _, _) => False
  end.
Proof.
  destruct (protection_priority_by_path 0 0 (fresh_machine (steady_world 36000000000 10)))
    as (Hlive & _).
  destruct (live_dashboard 0 0 (fresh_machine (steady_world 36000000000 10)))
    as [[r | e] m'] eqn:E.
  - pose proof (Hlive r m' eq_refl) as (Halta & _).
    vm_compute in E. injection E as <- _.
    assert (Hin : In "Alto" ["Alto"; "Muy Alto"]) by (simpl; tauto).
    split; [exact Hin | exact (Halta Hin)].
  - vm_compute in E. discriminate E.
Defined.

(** C4 as stated fails on the fallback path: in an urban_center_extreme
    area with simulated concentration 60 the risk level is Alto while
    the priority is Media. *)
Lemma fallback_priority_not_from_risk :
  match _get_fallback_dashboard 28.6 77.2 (fresh_machine (steady_world 0 (-3))) with
  | (Return r, _) =>
      no2_tropospheric (air_quality r) == 60 /\
      risk_level (vulnerability_analysis r) = "Alto" /\
      protection_priority (vulnerability_analysis r) = "Media"
  | (Raise _, _) => False
  end.
Proof. vm_compute. repeat split. Qed.

(** ** The fallback result *)

(** Lines 475-481: the recommendations every fallback result carries. *)
Definition fallback_recommendations : Recommendations :=
  {| general := ["Monitorear calidad del aire"; "Evitar zonas de alto tráfico"];
     for_schools := ["Limitar recreo al aire libre si la calidad empeora"];
     for_elderly := ["Tomar precauciones normales"];
     for_health_centers := ["Estar preparado para consultas respiratorias"];
     immediate_actions := [] |}.

Lemma tiered_rules_never_give_fallback_lists
    (no2_level : Q) (risk : string) (groups : list string) :
  _generate_recommendations no2_level risk groups <> fallback_recommendations.
Proof.
  unfold _generate_recommendations, fallback_recommendations.
  case_ltb; intros Heq; injection Heq; intros; discriminate.
Qed.

(** C5 (as the code has it).  The fallback result carries the fixed
    weather 22.0, 5.0, 60.0, Templado; a vulnerability assessment whose
    area, groups, risk level and risk factors are computed from the
    simulated concentration of the classified area; a fixed set of
    recommendation lists, which the tiered rules of section 4.4 never
    produce; and the trend and forecast that the two generators produce
    for the coordinate, each from baseline samples of its own. *)
Theorem fallback_result_contents (lat lon : Q) (m : Machine) :
  let area := _classify_area lat lon in
  exists fallback_no2 m1 t1 m2 trend m3 fc m4 r m',
    _get_base_no2_for_area lat lon area m = (Return fallback_no2, m1) /\
    utcnow m1 = (Return t1, m2) /\
    _generate_historical_trend lat lon m2 = (Return trend, m3) /\
    _generate_forecast lat lon m3 = (Return fc, m4) /\
    _get_fallback_dashboard lat lon m = (Return r, m') /\
    weather r =
      {| temperature := Some 22.0; wind_speed := Some 5.0;
         humidity := Some 60.0; condition := "Templado" |} /\
    area_type (vulnerability_analysis r) = area /\
    vulnerable_groups (vulnerability_analysis r) = _identify_vulnerable_groups area /\
    risk_level (vulnerability_analysis r) = _calculate_risk_level fallback_no2 area /\
    risk_factors (vulnerability_analysis r) = _get_risk_factors area fallback_no2 /\
    recommendations r = fallback_recommendations /\
    (forall x risk groups,
       recommendations r <> _generate_recommendations x risk groups) /\
    historical_trend (visualization_data r) = trend /\
    forecast (visualization_data r) = fc /\
    data_source (metadata r) = "Fallback data".
Proof.
  intros area.
  destruct (fallback_run lat lon m)
    as (x & m1 & t1 & m2 & trend & m3 & fc & m4 & t2 & m5 & E1 & E2 & E3 & E4 & _ & E).
  fold area in E1, E.
  eexists x, m1, t1, m2, trend, m3, fc, m4, _, m5.
  repeat (split; [eassumption |]).
  cbn.
  repeat (split; [reflexivity |]).
  split; [| repeat split].
  intros y risk groups H.
  apply (tiered_rules_never_give_fallback_lists y risk groups). symmetry. exact H.
Qed.

(** C5 as stated fails: in a residential area with simulated
    concentration 30 the tiered rules would give the single general
    message and no school or elderly guidance; the fallback result
    carries its fixed lists. *)
Lemma fallback_recommendations_not_tiered :
  match _get_fallback_dashboard 0 0 (fresh_machine (steady_world 0 0)) with
  | (Return r, _) =>
      no2_tropospheric (air_quality r) == 30 /\
      _generate_recommendations 30
        (risk_level (vulnerability_analysis r))
        (vulnerable_groups (vulnerability_analysis r)) =
        {| general := ["Calidad del aire aceptable, tomar precauciones normales"];
           for_schools := []; for_elderly := []; for_health_centers := [];
           immediate_actions := [] |} /\
      recommendations r = fallback_recommendations /\
      recommendations r <>
        _generate_recommendations 30
          (risk_level (vulnerability_analysis r))
          (vulnerable_groups (vulnerability_analysis r))
  | (Raise _, _) => False
  end.
Proof.
  vm_compute. split; [reflexivity |]. split; [reflexivity |].
  split; [reflexivity |]. intros H. discriminate H.
Qed.

(** ** The forecast *)

Lemma range_lookup (n k : nat) : (k < n)%nat -> range n !! k = Some (Z.of_nat k).
Proof.
  intros H. unfold range. rewrite list_lookup_fmap, lookup_seq_lt by exact H.
  reflexivity.
Qed.

(** The loop of lines 251-269: entry [k] is built from the [k]-th sample
    drawn after the loop starts. *)
Lemma forecast_loop (base_no2 : Q) (current_hour : Z) (l : list Z) (m : Machine) :
  exists fc m',
    for_each
      (fun hour =>
         let future_hour := ((current_hour + hour) mod 24)%Z in
         let traffic_peak := traffic_peak future_hour in
         z <- np_random_normal 0 5 ;;
         let hourly_no2 := base_no2 * traffic_peak + z in
         ret (forecast_entry future_hour hourly_no2))
      l m = (Return fc, m') /\
    forall (k : nat) (hour : Z),
      l !! k = Some hour ->
      fc !! k =
        Some (forecast_entry ((current_hour + hour) mod 24)%Z
                (base_no2 * traffic_peak ((current_hour + hour) mod 24)%Z +
                 (0 + 5 * normal_draw (world m) (tick (world m) + k)%nat))).
Proof.
  revert m. induction l as [| h l IH]; intros m.
  - exists [], m. split; [reflexivity |]. intros k hour H. discriminate H.
  - destruct (IH (step_world m)) as (fc & m' & E & Hfc).
    eexists (_ :: fc), m'. split.
    + cbn [for_each].
      erewrite bind_run by reflexivity.
      rewrite (bind_run _ _ _ _ _ E). reflexivity.
    + intros [| k] hour H.
      * injection H as <-. cbn. rewrite Nat.add_0_r. reflexivity.
      * rewrite lookup_cons in H. rewrite lookup_cons, (Hfc k hour H).
        cbn [step_world world advance tick normal_draw].
        replace (tick (world m) + S k)%nat with (S (tick (world m)) + k)%nat by lia.
        reflexivity.
Qed.

(** C3 (as the code has it).  For every coordinate and every forecast
    index k < 24 the concentration before flooring is the area baseline
    times the forecast's own hour multiplier plus noise, for the hour
    (current hour + k) mod 24; that multiplier is 1.8 for hours 7-9,
    1.9 for hours 17-20, 1.3 for hours 12-14, 0.6 for hours 23-5 and 1.0
    otherwise: the simulator's table except on hours 17-20. *)
Theorem forecast_concentration_before_floor
    (lat lon : Q) (m : Machine) (k : nat) (Hk : (k < 24)%nat) :
  let now := utc_clock (world m) (tick (world m)) in
  let future_hour := ((hour_of now + Z.of_nat k) mod 24)%Z in
  let noise := 0 + 5 * normal_draw (world m) (tick (world m) + 2 + k)%nat in
  exists base_no2 m1 fc m',
    _get_base_no2_for_area lat lon (_classify_area lat lon) (step_world m) =
      (Return base_no2, m1) /\
    _generate_forecast lat lon m = (Return fc, m') /\
    fc !! k =
      Some (forecast_entry future_hour (base_no2 * traffic_peak future_hour + noise)) /\
    ((7 <= future_hour <= 9)%Z -> traffic_peak future_hour = 1.8) /\
    ((17 <= future_hour <= 20)%Z -> traffic_peak future_hour = 1.9) /\
    ((12 <= future_hour <= 14)%Z -> traffic_peak future_hour = 1.3) /\
    ((future_hour = 23 \/ future_hour <= 5)%Z -> traffic_peak future_hour = 0.6) /\
    ((future_hour = 6 \/ 10 <= future_hour <= 11 \/ 15 <= future_hour <= 16 \/
      21 <= future_hour <= 22)%Z -> traffic_peak future_hour = 1.0) /\
    (~ (17 <= future_hour <= 20)%Z ->
     traffic_peak future_hour = traffic_pattern future_hour).
Proof.
  intros now future_hour noise.
  pose proof (base_no2_run lat lon (_classify_area lat lon) (step_world m)) as E1.
  destruct (forecast_loop
              (fst (area_mean_spread (_classify_area lat lon)) +
               (0 + snd (area_mean_spread (_classify_area lat lon)) *
                      normal_draw (world (step_world m)) (tick (world (step_world m)))))
              (hour_of now) (range 24) (step_world (step_world m)))
    as (fc & m' & E2 & Hfc).
  eexists _, _, fc, m'. split; [exact E1 |]. split.
  - unfold _generate_forecast. unfold bind at 1. cbn [utcnow].
    rewrite (bind_run _ _ _ _ _ E1). exact E2.
  - split.
    + rewrite (Hfc k (Z.of_nat k) (range_lookup 24 k Hk)).
      subst noise future_hour.
      cbn [step_world world advance tick normal_draw].
      replace (S (S (tick (world m))) + k)%nat
        with (tick (world m) + 2 + k)%nat by lia.
      reflexivity.
    + assert (Hrange : (0 <= future_hour < 24)%Z)
        by (subst future_hour; apply Z.mod_pos_bound; lia).
      unfold traffic_peak, traffic_pattern.
      repeat split; intros H;
        repeat match goal with
               | |- context [(?a <=? ?b)%Z] => destruct (Z.leb_spec a b)
               end; cbn; try reflexivity; lia.
Qed.

Lemma forecast_concentration_before_floor_witness :
  (0 < 24)%nat /\
  match _generate_forecast 19.43 (-99.13)
          (fresh_machine (steady_world 61200000000 0)) with
  | (Return fc, _) => fc !! 0%nat = Some (forecast_entry 17 (80 * 1.9 + 0))
  | (Raise _, _) => False
  end.
Proof.
  assert (Hk : (0 < 24)%nat) by lia.
  split; [exact Hk |].
  destruct (forecast_concentration_before_floor 19.43 (-99.13)
              (fresh_machine (steady_world 61200000000 0)) 0 Hk)
    as (base_no2 & m1 & fc & m' & E1 & E2 & Hfc & _).
  rewrite E2, Hfc.
  vm_compute in E1. injection E1 as <- _.
  vm_compute. reflexivity.
Defined.

(** C3 as stated fails: at 17 h the forecast multiplies the baseline 80
    by 1.9, giving 152, where the table of section 4.2 has 1.8, giving
    144. *)
Lemma forecast_evening_multiplier_differs :
  match _generate_forecast 19.43 (-99.13)
          (fresh_machine (steady_world 61200000000 0)) with
  | (Return fc, _) =>
      exists p, fc !! 0%nat = Some p /\ hour p = 17%Z /\
        forecast_no2 p == 152 /\
        forecast_no2 (forecast_entry 17 (80 * traffic_pattern 17 + 0)) == 144 /\
        p <> forecast_entry 17 (80 * traffic_pattern 17 + 0)
  | (Raise _, _) => False
  end.
Proof.
  vm_compute. eexists. split; [reflexivity |].
  repeat split. intros H. discriminate H.
Qed.

(** ** The cache *)

Definition live_label : string := "NASA TEMPO Simulation + OpenAQ + Open-Meteo".

(** Every cached result carries the live source label. *)
Definition cache_live (m : Machine) : Prop :=
  forall key r t, cache m !! key = Some (r, t) -> data_source (metadata r) = live_label.

Lemma keeps_cache_lookup (key : Z * Z) : keeps_cache (cache_lookup key).
Proof.
  unfold cache_lookup. apply keeps_cache_bind; [apply keeps_cache_find |].
  intros [[cached_data timestamp] |]; [| apply keeps_cache_ret].
  apply keeps_cache_bind; [apply keeps_cache_utcnow |].
  intros now. destruct (_ <? _)%Z; apply keeps_cache_ret.
Qed.

Lemma cache_lookup_run (key : Z * Z) (m : Machine) :
  cache_lookup key m =
    match cache m !! key with
    | Some (cached_data, timestamp) =>
        (Return
           (if (timedelta_seconds (utc_clock (world m) (tick (world m)) - timestamp)
                <? cache_ttl)%Z
            then Some cached_data else None),
         step_world m)
    | None => (Return None, m)
    end.
Proof.
  unfold cache_lookup, bind, cache_find.
  destruct (cache m !! key) as [[cached_data timestamp] |]; [| reflexivity].
  cbn [utcnow]. destruct (_ <? _)%Z; reflexivity.
Qed.


(** Whole days of age are not counted: an entry whose age is a number of
    days plus less than 300 seconds is served as if it were fresh. *)
Lemma cache_lookup_ignores_days
    (key : Z * Z) (m : Machine) (data : DashboardResult) (created days rest : Z) :
  cache m !! key = Some (data, created) ->
  (utc_clock (world m) (tick (world m)) - created =
     days * (86400 * 1000000) + rest)%Z ->
  (0 <= rest < 300 * 1000000)%Z ->
  fst (cache_lookup key m) = Return (Some data).
Proof.
  intros Hentry Hage Hrest. rewrite cache_lookup_run, Hentry. cbn [fst].
  rewrite Hage. unfold timedelta_seconds, cache_ttl.
  replace (days * (86400 * 1000000) + rest)%Z
    with (rest + (days * 86400) * 1000000)%Z by lia.
  rewrite Z.div_add by lia.
  rewrite Z.add_mod, Z.mod_mul, Z.add_0_r, Z.mod_mod by lia.
  assert (Hq : (0 <= rest / 1000000 < 300)%Z).
  { split; [apply Z.div_pos; lia | apply Z.div_lt_upper_bound; lia]. }
  rewrite Z.mod_small by lia.
  destruct (Z.ltb_spec (rest / 1000000) 300); [reflexivity | lia].
Qed.

(** C2 (the code departs from it).  A result cached at time 0 is served
    again one day and ten seconds later (age 86410 s, far beyond the 300 s
    lifetime): the second call reads the clock once and returns the
    stored result, without recomputing. *)
Theorem stale_entry_served_after_a_day :
  match get_air_quality_dashboard 19.43 (-99.13) (fresh_machine (steady_world 0 0)) with
  | (Return stored, m1) =>
      cache m1 !! cache_key 19.43 (-99.13) = Some (stored, 0%Z) /\
      let later := {| cache := cache m1; world := steady_world 86410000000 1 |} in
      (300 * 1000000 <= utc_clock (world later) (tick (world later)) - 0)%Z /\
      match get_air_quality_dashboard 19.43 (-99.13) later with
      | (Return served, m2) =>
          served = stored /\ tick (world m2) = 1%nat /\ cache m2 = cache m1
      | (Raise _, _) => False
      end
  | (Raise _, _) => False
  end.
Proof.
  destruct (get_air_quality_dashboard 19.43 (-99.13) (fresh_machine (steady_world 0 0)))
    as [[stored | e] m1] eqn:E.
  - assert (Hentry : cache m1 !! cache_key 19.43 (-99.13) = Some (stored, 0%Z)).
    { vm_compute in E. injection E as <- <-. vm_compute. reflexivity. }
    split; [exact Hentry |].
    cbn zeta. split; [cbn; lia |].
    unfold get_air_quality_dashboard.
    erewrite bind_run.
    2: { rewrite cache_lookup_run. cbn [cache]. rewrite Hentry. reflexivity. }
    cbn. repeat split.
  - vm_compute in E. discriminate E.
Qed.

(** ** The fallback path and the cache *)

(** The protected block writes the cache only as its last step: when it
    raises, the cache is as before; when it returns, exactly the entry
    of the request was set, to the returned live result. *)
Lemma live_dashboard_cache (lat lon : Q) (m : Machine) :
  match live_dashboard lat lon m with
  | (Return r, m') =>
      data_source (metadata r) = live_label /\
      exists t, cache m' = <[cache_key lat lon := (r, t)]> (cache m)
  | (Raise e, m') => cache m' = cache m
  end.
Proof.
  unfold live_dashboard.
  unfold bind at 1. pose proof (keeps_cache_openaq lat lon m) as K1.
  destruct (_get_openaq_data lat lon m) as [[openaq_data | e] m1];
    cbn [snd] in K1; [| exact K1].
  unfold bind at 1. pose proof (keeps_cache_weather lat lon m1) as K2.
  destruct (_get_weather_data lat lon m1) as [[weather_data | e] m2];
    cbn [snd] in K2; [| congruence].
  destruct (returns_simulate lat lon weather_data m2) as (sim & m3 & E3).
  pose proof (keeps_cache_simulate lat lon weather_data m2) as K3.
  rewrite E3 in K3. cbn [snd] in K3. rewrite (bind_run _ _ _ _ _ E3).
  destruct (returns_trend lat lon m3) as (trend & m4 & E4).
  pose proof (keeps_cache_trend lat lon m3) as K4.
  rewrite E4 in K4. cbn [snd] in K4. rewrite (bind_run _ _ _ _ _ E4).
  destruct (returns_utcnow m4) as (t1 & m5 & E5).
  pose proof (keeps_cache_utcnow m4) as K5.
  rewrite E5 in K5. cbn [snd] in K5. rewrite (bind_run _ _ _ _ _ E5).
  destruct (returns_forecast lat lon m5) as (fc & m6 & E6).
  pose proof (keeps_cache_forecast lat lon m5) as K6.
  rewrite E6 in K6. cbn [snd] in K6. rewrite (bind_run _ _ _ _ _ E6).
  destruct (returns_utcnow m6) as (t2 & m7 & E7).
  pose proof (keeps_cache_utcnow m6) as K7.
  rewrite E7 in K7. cbn [snd] in K7. rewrite (bind_run _ _ _ _ _ E7).
  destruct (returns_utcnow m7) as (t3 & m8 & E8).
  pose proof (keeps_cache_utcnow m7) as K8.
  rewrite E8 in K8. cbn [snd] in K8. rewrite (bind_run _ _ _ _ _ E8).
  unfold bind, cache_store, ret. cbn [cache metadata data_source].
  split; [reflexivity |]. exists t3.
  rewrite K8, K7, K6, K5, K4, K3, K2, K1. reflexivity.
Qed.

Lemma cache_live_insert (m m' : Machine) (key : Z * Z) (r : DashboardResult) (t : Z) :
  cache_live m -> data_source (metadata r) = live_label ->
  cache m' = <[key := (r, t)]> (cache m) -> cache_live m'.
Proof.
  intros Hm Hr Hc k r' t' Hk. rewrite Hc in Hk.
  destruct (decide (key = k)) as [-> | Hne].
  - rewrite lookup_insert_eq in Hk. injection Hk as <- _. exact Hr.
  - rewrite lookup_insert_ne in Hk by exact Hne. exact (Hm k r' t' Hk).
Qed.

Lemma cache_live_fresh (w : World) : cache_live (fresh_machine w).
Proof.
  intros k r t Hk. cbn [cache fresh_machine] in Hk.
  rewrite lookup_empty in Hk. discriminate Hk.
Qed.

(** C8.  When the orchestrator takes the fallback path (the lookup
    missed, the protected block raised and the handler went on to the
    fallback), the result it returns is the fallback result, labelled
    'Fallback data', and the cache is as it was before the call.  No
    fallback result is ever written to the cache: every call keeps the
    property that all cached results carry the live label. *)
Theorem fallback_labelled_and_never_cached
    (lat lon : Q) (m m0 m1 : Machine) (e : exn)
    (Hmiss : cache_lookup (cache_key lat lon) m = (Return None, m0))
    (Hraise : live_dashboard lat lon m0 = (Raise e, m1))
    (Hprint : stdout_ok (world m1) (tick (world m1)) = true) :
  (exists r m2,
     get_air_quality_dashboard lat lon m = (Return r, m2) /\
     _get_fallback_dashboard lat lon (step_world m1) = (Return r, m2) /\
     data_source (metadata r) = "Fallback data" /\
     cache m2 = cache m) /\
  (forall lat' lon' m',
     cache_live m' ->
     cache_live (snd (get_air_quality_dashboard lat' lon' m'))).
Proof.
  split.
  - destruct (fallback_run lat lon (step_world m1))
      as (x & n1 & t1 & n2 & trend & n3 & fc & n4 & t2 & n5 & _ & _ & _ & _ & _ & E).
    eexists _, n5.
    assert (Hget : get_air_quality_dashboard lat lon m =
                   _get_fallback_dashboard lat lon (step_world m1)).
    { unfold get_air_quality_dashboard. rewrite (bind_run _ _ _ _ _ Hmiss).
      unfold try_except. rewrite Hraise.
      unfold bind, print. rewrite Hprint. reflexivity. }
    rewrite Hget. split; [exact E |]. split; [exact E |].
    split; [reflexivity |].
    pose proof (keeps_cache_fallback lat lon (step_world m1)) as Kf.
    rewrite E in Kf. cbn [snd step_world cache] in Kf.
    pose proof (live_dashboard_cache lat lon m0) as Kl. rewrite Hraise in Kl.
    pose proof (keeps_cache_lookup (cache_key lat lon) m) as Kc.
    rewrite Hmiss in Kc. cbn [snd] in Kc.
    congruence.
  - clear. intros lat lon m Hlive.
    unfold get_air_quality_dashboard.
    pose proof (keeps_cache_lookup (cache_key lat lon) m) as Kc.
    unfold bind at 1.
    destruct (cache_lookup (cache_key lat lon) m) as [[[cached |] | e] m0];
      cbn [snd] in Kc.
    + intros k r t Hk. cbn [ret snd] in Hk. rewrite Kc in Hk. exact (Hlive k r t Hk).
    + assert (Hlive0 : cache_live m0)
        by (intros k r t Hk; rewrite Kc in Hk; exact (Hlive k r t Hk)).
      unfold try_except.
      pose proof (live_dashboard_cache lat lon m0) as Kl.
      destruct (live_dashboard lat lon m0) as [[r | e] m1].
      * destruct Kl as (Hr & t & Hc). cbn [snd].
        exact (cache_live_insert m0 m1 _ r t Hlive0 Hr Hc).
      * pose proof (keeps_cache_bind
                      (print (String.append "Error en get_air_quality_dashboard: " (str e)))
                      (fun _ => _get_fallback_dashboard lat lon)
                      (keeps_cache_print _)
                      (fun _ => keeps_cache_fallback lat lon) m1) as Kh.
        intros k r t Hk. rewrite Kh, Kl in Hk. exact (Hlive0 k r t Hk).
    + intros k r t Hk. cbn [snd] in Hk. rewrite Kc in Hk. exact (Hlive k r t Hk).
Qed.

(** A world in which the weather request fails and the fetcher's own
    report of it cannot be printed (tick 2), while later prints work. *)
Definition broken_stdout_world : World :=
  {| tick := 0;
     utc_clock := fun _ => 0%Z;
     normal_draw := fun _ => 0;
     stdout_ok := fun n => negb (Nat.eqb n 2);
     http_openaq := fun _ => Return ∅;
     http_weather := fun _ => Raise (Exception "timeout");
     sine := fun _ => 0 |}.

Lemma fallback_labelled_and_never_cached_witness :
  match get_air_quality_dashboard 0 0 (fresh_machine broken_stdout_world) with
  | (Return r, m2) =>
      data_source (metadata r) = "Fallback data" /\
      cache m2 = cache (fresh_machine broken_stdout_world)
  | (Raise _, _) => False
  end.
Proof.
  set (m := fresh_machine broken_stdout_world).
  assert (Hmiss : cache_lookup (cache_key 0 0) m = (Return None, m))
    by reflexivity.
  assert (Hraise : live_dashboard 0 0 m =
                   (Raise (Exception "print failed"), snd (live_dashboard 0 0 m)))
    by (vm_compute; reflexivity).
  assert (Hprint : stdout_ok (world (snd (live_dashboard 0 0 m)))
                     (tick (world (snd (live_dashboard 0 0 m)))) = true)
    by (vm_compute; reflexivity).
  destruct (fallback_labelled_and_never_cached 0 0 m m _ _ Hmiss Hraise Hprint)
    as ((r & m2 & Hget & _ & Hlabel & Hcache) & _).
  rewrite Hget. split; [exact Hlabel | exact Hcache].
Defined.

(** * Further properties of the engine *)

(** ** Where the classifier puts a point *)

Lemma abs_ltb_true (a tol : Q) : - tol < a -> a < tol -> (Qabs a <? tol) = true.
Proof. intros H1 H2. apply ltb_true, Qabs_Qlt_condition. split; assumption. Qed.

Lemma abs_ltb_false (a tol : Q) : tol <= a \/ a <= - tol -> (Qabs a <? tol) = false.
Proof.
  intros H. apply ltb_false. apply Qnot_lt_le. intros Hlt.
  apply Qabs_Qlt_condition in Hlt. lra.
Qed.

Lemma abs_ltb_inv (a tol : Q) : (Qabs a <? tol) = true -> - tol < a /\ a < tol.
Proof.
  intros H. apply Qabs_Qlt_condition.
  destruct (ltb_spec (Qabs a) tol) as [Hlt | _]; [exact Hlt | discriminate H].
Qed.

(** A tolerance-box test fails as soon as one coordinate is out. *)
Lemma box_false (a b tol : Q) :
  tol <= a \/ a <= - tol \/ tol <= b \/ b <= - tol ->
  (Qabs a <? tol) && (Qabs b <? tol) = false.
Proof.
  intros [H | [H | [H | H]]].
  - rewrite (abs_ltb_false a tol) by (left; exact H). reflexivity.
  - rewrite (abs_ltb_false a tol) by (right; exact H). reflexivity.
  - rewrite (abs_ltb_false b tol) by (left; exact H). apply andb_false_r.
  - rewrite (abs_ltb_false b tol) by (right; exact H). apply andb_false_r.
Qed.

Lemma box_true (a b tol : Q) :
  - tol < a -> a < tol -> - tol < b -> b < tol ->
  (Qabs a <? tol) && (Qabs b <? tol) = true.
Proof.
  intros. rewrite !abs_ltb_true by assumption. reflexivity.
Qed.

Lemma box_inv (a b tol : Q) :
  (Qabs a <? tol) && (Qabs b <? tol) = true ->
  (- tol < a /\ a < tol) /\ (- tol < b /\ b < tol).
Proof.
  intros H. apply andb_true_iff in H as [Ha Hb].
  split; apply abs_ltb_inv; assumption.
Qed.

(** X1.  The seven tolerance boxes do not overlap, so the order of the
    tests never decides: a point inside the box of a reference
    coordinate gets that coordinate's area type. *)
Theorem classify_area_by_box (lat lon : Q) :
  (Qabs (lat - 19.43) < 0.5 -> Qabs (lon + 99.13) < 0.5 ->
     _classify_area lat lon = "urban_center_high") /\
  (Qabs (lat - 40.7) < 0.5 -> Qabs (lon + 74.0) < 0.5 ->
     _classify_area lat lon = "urban_center") /\
  (Qabs (lat - 34.0) < 0.5 -> Qabs (lon + 118.2) < 0.5 ->
     _classify_area lat lon = "urban_center_high") /\
  (Qabs (lat - 25.7) < 1.0 -> Qabs (lon + 100.3) < 1.0 ->
     _classify_area lat lon = "industrial_heavy") /\
  (Qabs (lat - 32.5) < 1.0 -> Qabs (lon + 117.0) < 1.0 ->
     _classify_area lat lon = "industrial") /\
  (Qabs (lat - 28.6) < 1.0 -> Qabs (lon - 77.2) < 1.0 ->
     _classify_area lat lon = "urban_center_extreme") /\
  (Qabs (lat - 39.9) < 1.0 -> Qabs (lon - 116.4) < 1.0 ->
     _classify_area lat lon = "urban_center_extreme").
Proof.
  unfold _classify_area.
  repeat apply conj; intros Hlat Hlon;
    apply Qabs_Qlt_condition in Hlat; apply Qabs_Qlt_condition in Hlon;
    repeat (rewrite box_false by lra);
    rewrite box_true by lra; reflexivity.
Qed.

Lemma classify_area_by_box_witness :
  Qabs (33.2 - 32.5) < 1.0 /\ Qabs (-117.9 + 117.0) < 1.0 /\
  _classify_area 33.2 (-117.9) = "industrial".
Proof.
  assert (Hlat : Qabs (33.2 - 32.5) < 1.0) by (vm_compute; reflexivity).
  assert (Hlon : Qabs (-117.9 + 117.0) < 1.0) by (vm_compute; reflexivity).
  destruct (classify_area_by_box 33.2 (-117.9)) as (_ & _ & _ & _ & H & _).
  split; [exact Hlat | split; [exact Hlon | exact (H Hlat Hlon)]].
Defined.

(** X2.  A point is residential exactly when its latitude is not
    strictly between 10 and 60 degrees north or south; the longitude
    plays no part in that. *)
Theorem residential_iff_latitude (lat lon : Q) :
  _classify_area lat lon = "residential" <->
  (lat <= -60 \/ (-10 <= lat /\ lat <= 10) \/ 60 <= lat).
Proof.
  unfold _classify_area, _is_major_urban.
  repeat match goal with
         | |- context [(Qabs ?a <? ?t) && (Qabs ?b <? ?t)] =>
             let E := fresh "E" in
             destruct ((Qabs a <? t) && (Qabs b <? t)) eqn:E;
             [ apply box_inv in E; split; [intros H; discriminate H | lra] |]
         end.
  destruct (ltb_spec 10 (Qabs lat)) as [H10 | H10];
    destruct (ltb_spec (Qabs lat) 60) as [H60 | H60]; cbn [andb].
  - apply Qabs_Qlt_condition in H60.
    split; [intros H; discriminate H |].
    intros [H | [[H1 H2] | H]]; try lra.
    assert (Qabs lat <= 10) by (apply Qabs_Qle_condition; lra). lra.
  - split; [intros _ | reflexivity].
    destruct (Qlt_le_dec lat 60) as [Hlt | Hge]; [| right; right; exact Hge].
    destruct (Qlt_le_dec (-60) lat) as [Hgt | Hle]; [| left; exact Hle].
    assert (Qabs lat < 60) by (apply Qabs_Qlt_condition; lra). lra.
  - split; [intros _ | reflexivity].
    apply Qabs_Qle_condition in H10. right; left. lra.
  - split; [intros _ | reflexivity].
    apply Qabs_Qle_condition in H10. right; left. lra.
Qed.

(** X3.  The unused helper [_is_urban_area] agrees with the classifier
    on the special areas: wherever the classifier answers
    urban_center_high, urban_center_extreme, industrial or
    industrial_heavy, the point is within 2 degrees of a listed city. *)
Theorem special_areas_are_urban (lat lon : Q) :
  In (_classify_area lat lon)
     ["urban_center_high"; "urban_center_extreme"; "industrial"; "industrial_heavy"] ->
  _is_urban_area lat lon = true.
Proof.
  unfold _classify_area, _is_urban_area. intros Hin.
  apply existsb_exists.
  repeat match type of Hin with
         | context [(Qabs ?a <? ?t) && (Qabs ?b <? ?t)] =>
             let E := fresh "E" in
             destruct ((Qabs a <? t) && (Qabs b <? t)) eqn:E;
             [ apply box_inv in E; clear Hin | ]
         end.
  - exists (19.43, -99.13). split; [simpl; tauto | cbn [fst snd]; apply box_true; lra].
  - exists (40.7, -74.0). split; [simpl; tauto | cbn [fst snd]; apply box_true; lra].
  - exists (34.0, -118.2). split; [simpl; tauto | cbn [fst snd]; apply box_true; lra].
  - exists (25.7, -100.3). split; [simpl; tauto | cbn [fst snd]; apply box_true; lra].
  - exists (32.5, -117.0). split; [simpl; tauto | cbn [fst snd]; apply box_true; lra].
  - exists (28.6, 77.2). split; [simpl; tauto | cbn [fst snd]; apply box_true; lra].
  - exists (39.9, 116.4). split; [simpl; tauto | cbn [fst snd]; apply box_true; lra].
  - exfalso. destruct (_is_major_urban lat lon); simpl in Hin;
      intuition discriminate.
Qed.

Lemma special_areas_are_urban_witness :
  In (_classify_area 26.5 (-101.2))
     ["urban_center_high"; "urban_center_extreme"; "industrial"; "industrial_heavy"] /\
  _is_urban_area 26.5 (-101.2) = true.
Proof.
  assert (Hin : In (_classify_area 26.5 (-101.2))
                  ["urban_center_high"; "urban_center_extreme"; "industrial";
                   "industrial_heavy"])
    by (vm_compute; tauto).
  split; [exact Hin | exact (special_areas_are_urban 26.5 (-101.2) Hin)].
Defined.

(** ** Risk level, priority and risk factors *)

Definition risk_levels : list string := ["Bajo"; "Moderado"; "Alto"; "Muy Alto"].

(** Position of a risk level in the order Bajo < Moderado < Alto < Muy Alto. *)
Definition risk_rank (level : string) : nat :=
  if String.eqb level "Bajo" then 0
  else if String.eqb level "Moderado" then 1
  else if String.eqb level "Alto" then 2
  else if String.eqb level "Muy Alto" then 3
  else 4.

(** X4.  For every area tag, known or not, the risk level is one of the
    four levels, is never below the base risk of the concentration, and
    never decreases when the concentration grows; in the four escalating
    areas it is never Bajo. *)
Theorem risk_level_ordered (x y : Q) (area : string) (Hxy : x <= y) :
  In (_calculate_risk_level x area) risk_levels /\
  (risk_rank (base_risk x) <= risk_rank (_calculate_risk_level x area))%nat /\
  (risk_rank (_calculate_risk_level x area) <=
   risk_rank (_calculate_risk_level y area))%nat /\
  (In area ["urban_center_extreme"; "industrial_heavy"; "urban_center_high";
            "industrial"] ->
   _calculate_risk_level x area <> "Bajo").
Proof.
  assert (Hesc : In area ["urban_center_extreme"; "industrial_heavy";
                          "urban_center_high"; "industrial"] ->
                 Py.str_in area ["urban_center_extreme"; "industrial_heavy"] = true \/
                 Py.str_in area ["urban_center_high"; "industrial"] = true).
  { intros [<- | [<- | [<- | [<- | []]]]]; [left | left | right | right]; reflexivity. }
  unfold _calculate_risk_level, base_risk.
  destruct (Py.str_in area ["urban_center_extreme"; "industrial_heavy"]);
    destruct (Py.str_in area ["urban_center_high"; "industrial"]);
    case_ltb; try lra;
    (split; [vm_compute; tauto |]);
    (split; [vm_compute; lia |]);
    (split; [vm_compute; lia |]);
    intros Hin; destruct (Hesc Hin); discriminate.
Qed.

Lemma risk_level_ordered_witness :
  60 <= 120 /\
  _calculate_risk_level 60 "industrial" = "Alto" /\
  _calculate_risk_level 120 "industrial" = "Alto" /\
  (risk_rank (_calculate_risk_level 60 "industrial") <=
   risk_rank (_calculate_risk_level 120 "industrial"))%nat.
Proof.
  assert (Hxy : 60 <= 120) by (unfold Qle; simpl; lia).
  destruct (risk_level_ordered 60 120 "industrial" Hxy) as (_ & _ & Hm & _).
  split; [exact Hxy | split; [reflexivity | split; [reflexivity | exact Hm]]].
Defined.

(** X5.  On the live path the protection priority can be read off the
    inputs: it is Alta exactly when the concentration exceeds 100, or
    exceeds 50 at a point classified urban_center_extreme,
    industrial_heavy, urban_center_high or industrial. *)
Theorem live_priority_from_inputs (lat lon x : Q) :
  protection_priority (_analyze_vulnerability lat lon x) = "Alta" <->
  (100 < x \/
   (50 < x /\
    In (_classify_area lat lon)
       ["urban_center_extreme"; "industrial_heavy"; "urban_center_high";
        "industrial"])).
Proof.
  unfold _analyze_vulnerability. cbn [protection_priority].
  destruct (classify_area_closed lat lon) as [a ->].
  unfold _calculate_risk_level, base_risk.
  destruct a; case_ltb; try lra;
    match goal with
    | |- ?L = "Alta" <-> _ => let v := eval vm_compute in L in change L with v
    end;
    cbn [area_name In];
    (split;
     [ intros Hp; first [ discriminate Hp
                        | left; lra
                        | right; split; [lra | tauto] ]
     | intros [Hx | [Hx Ha]];
       first [ reflexivity | lra | exfalso; intuition discriminate ] ]).
Qed.

(** X6.  The list of risk factors is never empty.  For a classified
    area it is the single entry "Condiciones normales" exactly when the
    concentration is at most 80 and the area is urban_center or
    residential, and the "dangerous levels" factor never appears without
    the "high concentration" factor. *)
Theorem risk_factors_shape (a : AreaType) (x : Q) :
  let factors := _get_risk_factors (area_name a) x in
  factors <> [] /\
  (factors = ["Condiciones normales"] <->
   x <= 80 /\ (a = urban_center \/ a = residential)) /\
  (In "Niveles peligrosos de contaminación" factors ->
   In "Alta concentración de NO2" factors).
Proof.
  unfold _get_risk_factors.
  destruct a; case_ltb; try lra;
    match goal with
    | |- ?F <> [] /\ _ => let v := eval vm_compute in F in change F with v
    end;
    (split; [discriminate |]);
    (split;
     [ split;
       [ intros Hf; first [ discriminate Hf | split; [lra | tauto] ]
       | intros [Hx [Ha | Ha]]; first [ reflexivity | lra | discriminate Ha ] ]
     | simpl; intros Hin; first [ tauto | exfalso; intuition discriminate ] ]).
Qed.

(** ** Recommendations *)

(** X7.  At a concentration of at most 50 the recommendations are the
    single "acceptable" general message and nothing else, whatever the
    groups.  Immediate actions are issued exactly above 80, the general
    list is never empty, and the risk level passed in never changes the
    outcome. *)
Theorem recommendations_by_concentration
    (x : Q) (risk risk' : string) (groups : list string) :
  (x <= 50 ->
   _generate_recommendations x risk groups =
     {| general := ["Calidad del aire aceptable, tomar precauciones normales"];
        for_schools := []; for_elderly := []; for_health_centers := [];
        immediate_actions := [] |}) /\
  (immediate_actions (_generate_recommendations x risk groups) <> [] <-> 80 < x) /\
  general (_generate_recommendations x risk groups) <> [] /\
  _generate_recommendations x risk groups = _generate_recommendations x risk' groups.
Proof.
  unfold _generate_recommendations.
  split; [| split; [| split; [| reflexivity]]].
  - intros Hx.
    rewrite (ltb_false 80 x), (ltb_false 50 x), (ltb_false 70 x), (ltb_false 60 x)
      by lra.
    destruct (Py.str_in "schools" groups), (Py.str_in "elderly" groups),
      (Py.str_in "hospitals" groups); reflexivity.
  - case_ltb; cbn [immediate_actions]; split; intros Hi;
      first [ assumption | lra | discriminate Hi | congruence ].
  - case_ltb; cbn [general]; discriminate.
Qed.

Lemma recommendations_by_concentration_witness :
  30 <= 50 /\
  _generate_recommendations 30 "Muy Alto" ["schools"; "elderly"; "hospitals"] =
    {| general := ["Calidad del aire aceptable, tomar precauciones normales"];
       for_schools := []; for_elderly := []; for_health_centers := [];
       immediate_actions := [] |}.
Proof.
  assert (Hx : 30 <= 50) by (unfold Qle; simpl; lia).
  destruct (recommendations_by_concentration 30 "Muy Alto" "Bajo"
              ["schools"; "elderly"; "hospitals"]) as (Hlow & _).
  split; [exact Hx | exact (Hlow Hx)].
Defined.

(** X8.  Guidance for health centers is issued exactly when the
    concentration exceeds 60 in an area whose groups include hospitals:
    urban_center, urban_center_high and urban_center_extreme; never in
    industrial or residential areas. *)
Theorem health_center_guidance (a : AreaType) (x : Q) (risk : string) :
  for_health_centers
    (_generate_recommendations x risk (_identify_vulnerable_groups (area_name a)))
    <> [] <->
  60 < x /\ (a = urban_center \/ a = urban_center_high \/ a = urban_center_extreme).
Proof.
  unfold _generate_recommendations.
  destruct (if x >? 80 then _ else _) as [g i]. cbn [for_health_centers].
  destruct a;
    match goal with
    | |- context [Py.str_in "hospitals" ?g] =>
        let v := eval vm_compute in (Py.str_in "hospitals" g) in
        change (Py.str_in "hospitals" g) with v
    end;
    cbv iota; case_ltb;
    (split;
     [ intros Hh; first [ split; [lra | tauto] | congruence ]
     | intros [Hx [Ha | [Ha | Ha]]];
       first [ discriminate | lra | discriminate Ha ] ]).
Qed.

(** ** AQI against the quality label, and below zero *)

(** X9.  For a non-negative concentration the AQI and the quality label
    agree on the two lower bands: the label is Buena exactly when the
    AQI is below 50 and Moderada exactly when it is in [50,100); from
    Mala on the AQI is at least 100, and at least 200 for Peligrosa. *)
Theorem aqi_matches_label (x : Q) (H0 : 0 <= x) :
  (_calculate_quality x = "Buena" <-> (_calculate_aqi x < 50)%Z) /\
  (_calculate_quality x = "Moderada" <-> (50 <= _calculate_aqi x < 100)%Z) /\
  (In (_calculate_quality x) ["Mala"; "Muy Mala"; "Peligrosa"] <->
   (100 <= _calculate_aqi x)%Z) /\
  (_calculate_quality x = "Peligrosa" -> (200 <= _calculate_aqi x <= 300)%Z).
Proof.
  destruct (aqi_bands x H0) as (B1 & B2 & B3 & B4 & B5).
  destruct (quality_thresholds x) as (Q1 & Q2 & Q3 & Q4 & Q5).
  destruct (Qlt_le_dec x 40) as [x40 | x40].
  { specialize (B1 x40). rewrite (Q1 x40). cbn [In].
    repeat split; intros; try reflexivity; try lia; try discriminate.
    exfalso. intuition discriminate. }
  destruct (Qlt_le_dec x 80) as [x80 | x80].
  { specialize (B2 x40 x80). rewrite (Q2 x40 x80). cbn [In].
    repeat split; intros; try reflexivity; try lia; try discriminate.
    exfalso. intuition discriminate. }
  destruct (Qlt_le_dec x 120) as [x120 | x120].
  { specialize (B3 x80 x120). rewrite (Q3 x80 x120). cbn [In].
    repeat split; intros; try lia; try discriminate; tauto. }
  destruct (Qlt_le_dec x 160) as [x160 | x160].
  { specialize (B4 x120 x160). rewrite (Q4 x120 x160). cbn [In].
    repeat split; intros; try lia; try discriminate; tauto. }
  specialize (B5 x160). rewrite (Q5 x160). cbn [In].
  repeat split; intros; try lia; try discriminate; tauto.
Qed.

Lemma aqi_matches_label_witness :
  0 <= 60 /\ _calculate_quality 60 = "Moderada" /\ (50 <= _calculate_aqi 60 < 100)%Z.
Proof.
  assert (H0 : 0 <= 60) by (unfold Qle; simpl; lia).
  destruct (aqi_matches_label 60 H0) as (_ & (Hm & _) & _).
  split; [exact H0 | split; [reflexivity | exact (Hm eq_refl)]].
Defined.

Lemma int_nonpos (q : Q) : q <= 0 -> Py.int q = (- Qfloor (- q))%Z.
Proof.
  destruct q as [n d]. unfold Qle, Py.int, Qfloor, Qopp. simpl. intros H.
  replace n with (- (- n))%Z at 1 by lia.
  rewrite Z.quot_opp_l by lia. f_equal.
  apply Z.quot_div_nonneg; lia.
Qed.

(** X10.  The AQI never exceeds 300, for any input.  Nothing floors it
    at 0: since int() truncates toward zero, it is negative exactly for
    concentrations of -0.8 or less. *)
Theorem aqi_upper_bound_and_sign (x : Q) :
  (_calculate_aqi x <= 300)%Z /\
  ((_calculate_aqi x < 0)%Z <-> x <= -0.8).
Proof.
  destruct (Qlt_le_dec x 0) as [Hneg | Hpos].
  - assert (E : _calculate_aqi x = (- Qfloor (- (x * 1.25)))%Z).
    { unfold _calculate_aqi. rewrite (ltb_true x 40) by lra.
      apply int_nonpos. lra. }
    rewrite E.
    assert (Hf0 : (0 <= Qfloor (- (x * 1.25)))%Z)
      by (apply floor_lower; unfold inject_Z; lra).
    split; [lia |]. split.
    + intros Hlt.
      assert (H1 : (1 <= Qfloor (- (x * 1.25)))%Z) by lia.
      pose proof (Qfloor_le (- (x * 1.25))) as Hle.
      rewrite Zle_Qle in H1. unfold inject_Z in *. lra.
    + intros Hx.
      assert (H1 : (1 <= Qfloor (- (x * 1.25)))%Z)
        by (apply floor_lower; unfold inject_Z; lra).
      lia.
  - destruct (aqi_bands x Hpos) as (B1 & B2 & B3 & B4 & B5).
    assert (Hb : (0 <= _calculate_aqi x <= 300)%Z).
    { destruct (Qlt_le_dec x 40); [specialize (B1 ltac:(lra)); lia |].
      destruct (Qlt_le_dec x 80); [specialize (B2 ltac:(lra) ltac:(lra)); lia |].
      destruct (Qlt_le_dec x 120); [specialize (B3 ltac:(lra) ltac:(lra)); lia |].
      destruct (Qlt_le_dec x 160); [specialize (B4 ltac:(lra) ltac:(lra)); lia |].
      specialize (B5 ltac:(lra)); lia. }
    split; [lia |]. split; [lia | lra].
Qed.

(** ** Rounding keeps integer floors *)

Lemma round_lower (x : Q) (n : Z) : inject_Z n <= x -> inject_Z n <= Py.round x 2.
Proof.
  intros H. unfold Py.round.
  change (10 ^ Z.of_nat 2)%Z with 100%Z.
  set (y := x * inject_Z 100).
  assert (Hf : (n * 100 <= Qfloor y)%Z).
  { apply floor_lower. subst y. rewrite inject_Z_mult. unfold inject_Z in *. nra. }
  set (num := if y - inject_Z (Qfloor y) <? 1 # 2 then Qfloor y
              else if 1 # 2 <? y - inject_Z (Qfloor y) then (Qfloor y + 1)%Z
              else if Z.even (Qfloor y) then Qfloor y else (Qfloor y + 1)%Z).
  assert (Hnum : (Qfloor y <= num)%Z).
  { subst num. destruct (_ <? _); [lia |]. destruct (_ <? _); [lia |].
    destruct (Z.even _); lia. }
  unfold Qle, inject_Z. cbn [Qnum Qden]. change (Z.to_pos 100) with 100%positive. lia.
Qed.

(** ** Shape of the forecast and of the trend *)

Lemma for_each_length {A B} (f : A -> M B) (l : list A) (m m' : Machine) (ys : list B) :
  for_each f l m = (Return ys, m') -> length ys = length l.
Proof.
  revert m m' ys. induction l as [| x l IH]; intros m m' ys H.
  - injection H as <- _. reflexivity.
  - cbn [for_each] in H.
    apply bind_inv in H as (y & m1 & _ & H).
    apply bind_inv in H as (ys' & m2 & H & Hret).
    injection Hret as <- _. cbn [length]. f_equal. exact (IH m1 m2 ys' H).
Qed.

Lemma quality_unchanged_by_floor (v : Q) :
  _calculate_quality (Py.max 10 v) = _calculate_quality v.
Proof.
  unfold Py.max. destruct (ltb_spec 10 v) as [H | H]; [reflexivity |].
  unfold _calculate_quality.
  rewrite (ltb_true 10 40) by lra. rewrite (ltb_true v 40) by lra. reflexivity.
Qed.

(** X11.  The forecast always has exactly 24 entries.  Entry k is for
    hour (current hour + k) mod 24, so every hour of the day appears, and
    at one position only.  Every reported concentration is at least 10,
    and the label attached (computed before flooring) is the label of
    the floored value. *)
Theorem forecast_shape (lat lon : Q) (m : Machine) :
  let now := utc_clock (world m) (tick (world m)) in
  exists fc m',
    _generate_forecast lat lon m = (Return fc, m') /\
    length fc = 24%nat /\
    (forall (k : nat) p, fc !! k = Some p ->
       hour p = ((hour_of now + Z.of_nat k) mod 24)%Z /\
       10 <= forecast_no2 p /\
       exists v, forecast_no2 p = Py.round (Py.max 10 v) 2 /\
                 forecast_quality p = _calculate_quality (Py.max 10 v)) /\
    (forall h, (0 <= h < 24)%Z -> exists (k : nat) p, fc !! k = Some p /\ hour p = h) /\
    (forall (k k' : nat) p p',
       fc !! k = Some p -> fc !! k' = Some p' -> hour p = hour p' -> k = k').
Proof.
  intros now.
  pose proof (base_no2_run lat lon (_classify_area lat lon) (step_world m)) as E1.
  set (base := fst (area_mean_spread (_classify_area lat lon)) + _) in E1.
  destruct (forecast_loop base (hour_of now) (range 24) (step_world (step_world m)))
    as (fc & m' & E2 & Hfc).
  assert (Hlen : length fc = 24%nat) by (rewrite (for_each_length _ _ _ _ _ E2); reflexivity).
  assert (Hat : forall (k : nat) p, fc !! k = Some p ->
            (k < 24)%nat /\
            exists v, p = forecast_entry ((hour_of now + Z.of_nat k) mod 24)%Z v).
  { intros k p Hk.
    assert (Hlt : (k < 24)%nat) by (rewrite <- Hlen; exact (lookup_lt_Some _ _ _ Hk)).
    split; [exact Hlt |].
    rewrite (Hfc k (Z.of_nat k) (range_lookup 24 k Hlt)) in Hk.
    injection Hk as <-. eexists. reflexivity. }
  exists fc, m'. split; [| split; [exact Hlen | split; [| split]]].
  - unfold _generate_forecast. unfold bind at 1. cbn [utcnow].
    rewrite (bind_run _ _ _ _ _ E1). exact E2.
  - intros k p Hk. destruct (Hat k p Hk) as (_ & v & ->).
    cbn [hour forecast_no2 forecast_quality forecast_entry].
    split; [reflexivity |]. split.
    + apply (round_lower _ 10). apply max_lower.
    + exists v. split; [reflexivity |]. symmetry. apply quality_unchanged_by_floor.
  - intros h Hh.
    assert (Hk : (0 <= (h - hour_of now) mod 24 < 24)%Z)
      by (apply Z.mod_pos_bound; lia).
    set (k := Z.to_nat ((h - hour_of now) mod 24)).
    assert (Hlt : (k < 24)%nat) by (subst k; lia).
    eexists k, _. split.
    + rewrite (Hfc k (Z.of_nat k) (range_lookup 24 k Hlt)). reflexivity.
    + cbn [hour forecast_entry]. subst k. rewrite Z2Nat.id by lia.
      rewrite Z.add_mod_idemp_r by lia.
      replace (hour_of now + (h - hour_of now))%Z with h by lia.
      apply Z.mod_small. exact Hh.
  - intros k k' p p' Hk Hk' Hh.
    destruct (Hat k p Hk) as (Hlt & v & ->).
    destruct (Hat k' p' Hk') as (Hlt' & v' & ->).
    cbn [hour forecast_entry] in Hh.
    assert (Hrange : (0 <= hour_of now < 24)%Z)
      by (unfold hour_of; apply Z.mod_pos_bound; lia).
    revert Hh. generalize (hour_of now) Hrange. intros c Hc Hh.
    apply Nat2Z.inj.
    assert (Hz : (0 <= Z.of_nat k < 24)%Z) by lia.
    assert (Hz' : (0 <= Z.of_nat k' < 24)%Z) by lia.
    revert Hh. generalize (Z.of_nat k) (Z.of_nat k') Hz Hz'. intros a b Ha Hb Hh.
    Z.div_mod_to_equations. lia.
Qed.

(** One iteration of the loop of lines 231-241. *)
Definition trend_point_at (lat lon : Q) (i : Z) : M TrendPoint :=
  now <- utcnow ;;
  let date := (now - timedelta_days (Z.of_nat 7 - i - 1))%Z in
  base_no2 <- _get_base_no2_for_area lat lon (_classify_area lat lon) ;;
  s <- np_sin (inject_Z i * 0.8) ;;
  z <- np_random_normal 0 8 ;;
  let daily_variation := s * 15 + z in
  let no2_value := Py.max 10 (base_no2 + daily_variation) in
  ret {| date := date;
         trend_no2 := Py.round no2_value 2;
         trend_quality := _calculate_quality no2_value |}.

Lemma trend_is_loop (lat lon : Q) :
  _generate_historical_trend lat lon = for_each (trend_point_at lat lon) (range 7).
Proof. reflexivity. Qed.

Lemma trend_point_run (lat lon : Q) (i : Z) (m : Machine) :
  exists v,
    10 <= v /\
    trend_point_at lat lon i m =
      (Return {| date := (utc_clock (world m) (tick (world m)) -
                          timedelta_days (7 - i - 1))%Z;
                 trend_no2 := Py.round v 2;
                 trend_quality := _calculate_quality v |},
       step_world (step_world (step_world m))).
Proof.
  unfold trend_point_at. eexists. split; [| unfold bind at 1; cbn [utcnow];
    rewrite (bind_run _ _ _ _ _ (base_no2_run lat lon _ (step_world m)));
    reflexivity].
  apply max_lower.
Qed.

Lemma trend_loop (lat lon : Q) (l : list Z) (m : Machine) :
  exists trend m',
    for_each (trend_point_at lat lon) l m = (Return trend, m') /\
    forall (k : nat) (i : Z),
      l !! k = Some i ->
      exists v,
        10 <= v /\
        trend !! k =
          Some {| date := (utc_clock (world m) (tick (world m) + 3 * k)%nat -
                           timedelta_days (7 - i - 1))%Z;
                  trend_no2 := Py.round v 2;
                  trend_quality := _calculate_quality v |}.
Proof.
  revert m. induction l as [| i0 l IH]; intros m.
  - exists [], m. split; [reflexivity |]. intros k i H. discriminate H.
  - destruct (trend_point_run lat lon i0 m) as (v0 & Hv0 & E0).
    destruct (IH (step_world (step_world (step_world m)))) as (trend & m' & E & Ht).
    eexists (_ :: trend), m'. split.
    + cbn [for_each]. rewrite (bind_run _ _ _ _ _ E0), (bind_run _ _ _ _ _ E).
      reflexivity.
    + intros [| k] i H.
      * injection H as <-. exists v0. split; [exact Hv0 |].
        rewrite Nat.mul_0_r, Nat.add_0_r. reflexivity.
      * rewrite lookup_cons in H. destruct (Ht k i H) as (v & Hv & Hk).
        exists v. split; [exact Hv |]. rewrite lookup_cons, Hk.
        cbn [step_world world advance tick utc_clock].
        replace (S (S (S (tick (world m)))) + 3 * k)%nat
          with (tick (world m) + 3 * S k)%nat by lia.
        reflexivity.
Qed.

(** X12.  The historical trend always has exactly 7 entries.  Entry k
    is dated 6 - k days before the clock reading of its own iteration,
    so the last one is dated now; every reported concentration is at
    least 10, and its label is the label of the floored value. *)
Theorem trend_shape (lat lon : Q) (m : Machine) :
  exists trend m',
    _generate_historical_trend lat lon m = (Return trend, m') /\
    length trend = 7%nat /\
    forall (k : nat) p, trend !! k = Some p ->
      date p = (utc_clock (world m) (tick (world m) + 3 * k)%nat -
                (6 - Z.of_nat k) * 86400000000)%Z /\
      10 <= trend_no2 p /\
      exists v, 10 <= v /\ trend_no2 p = Py.round v 2 /\
                trend_quality p = _calculate_quality v.
Proof.
  rewrite trend_is_loop.
  destruct (trend_loop lat lon (range 7) m) as (trend & m' & E & Ht).
  assert (Hlen : length trend = 7%nat)
    by (rewrite (for_each_length _ _ _ _ _ E); reflexivity).
  exists trend, m'. split; [exact E |]. split; [exact Hlen |].
  intros k p Hk.
  assert (Hlt : (k < 7)%nat) by (rewrite <- Hlen; exact (lookup_lt_Some _ _ _ Hk)).
  destruct (Ht k (Z.of_nat k) (range_lookup 7 k Hlt)) as (v & Hv & Hp).
  rewrite Hp in Hk. injection Hk as <-.
  cbn [date trend_no2 trend_quality]. split.
  - unfold timedelta_days. f_equal. lia.
  - split; [apply (round_lower _ 10); exact Hv |].
    exists v. repeat split. exact Hv.
Qed.

(** ** More on the cache *)

(** What one call can do to the cache: nothing, or set the entry of the
    request to the live result it returns. *)
Lemma dashboard_cache_effect (lat lon : Q) (m : Machine) :
  let run := get_air_quality_dashboard lat lon m in
  cache (snd run) = cache m \/
  exists r t,
    fst run = Return r /\
    data_source (metadata r) = live_label /\
    cache (snd run) = <[cache_key lat lon := (r, t)]> (cache m).
Proof.
  cbv zeta.
  destruct (get_air_quality_dashboard lat lon m) as [o m'] eqn:E. cbn [fst snd].
  unfold get_air_quality_dashboard in E.
  pose proof (keeps_cache_lookup (cache_key lat lon) m) as Kc.
  unfold bind at 1 in E.
  destruct (cache_lookup (cache_key lat lon) m) as [[[cached |] | e] m0];
    cbn [snd] in Kc.
  - injection E as _ <-. left. exact Kc.
  - unfold try_except in E.
    pose proof (live_dashboard_cache lat lon m0) as Kl.
    destruct (live_dashboard lat lon m0) as [[r | e] m1].
    + injection E as <- <-. right. destruct Kl as (Hr & t & Hc). exists r, t.
      rewrite Hc, Kc. repeat split. exact Hr.
    + left.
      pose proof (keeps_cache_bind
                    (print (String.append "Error en get_air_quality_dashboard: " (str e)))
                    (fun _ => _get_fallback_dashboard lat lon)
                    (keeps_cache_print _)
                    (fun _ => keeps_cache_fallback lat lon) m1) as Kh.
      rewrite E in Kh. cbn [snd] in Kh. rewrite Kh, Kl. exact Kc.
  - injection E as _ <-. left. exact Kc.
Qed.

(** X13.  A call touches at most the cache entry of its own rounded
    coordinates, and entries are never removed: entries of other keys,
    however old, stay as they are. *)
Theorem cache_entries_never_removed (lat lon : Q) (m : Machine) (key : Z * Z) :
  let m' := snd (get_air_quality_dashboard lat lon m) in
  (key <> cache_key lat lon -> cache m' !! key = cache m !! key) /\
  (is_Some (cache m !! key) -> is_Some (cache m' !! key)).
Proof.
  cbv zeta.
  destruct (dashboard_cache_effect lat lon m) as [E | (r & t & _ & _ & E)];
    cbv zeta in E; rewrite E.
  - split; [reflexivity | tauto].
  - split.
    + intros Hne. apply lookup_insert_ne. congruence.
    + intros Hs. destruct (decide (cache_key lat lon = key)) as [<- | Hne].
      * rewrite lookup_insert_eq. eexists. reflexivity.
      * rewrite lookup_insert_ne by exact Hne. exact Hs.
Qed.

Lemma cache_entries_never_removed_witness :
  let m := fresh_machine (steady_world 0 0) in
  let m1 := snd (get_air_quality_dashboard 19.43 (-99.13) m) in
  let m2 := snd (get_air_quality_dashboard 0 0 m1) in
  cache_key 19.43 (-99.13) <> cache_key 0 0 /\
  is_Some (cache m1 !! cache_key 19.43 (-99.13)) /\
  cache m2 !! cache_key 19.43 (-99.13) = cache m1 !! cache_key 19.43 (-99.13).
Proof.
  cbv zeta.
  assert (Hne : cache_key 19.43 (-99.13) <> cache_key 0 0)
    by (vm_compute; discriminate).
  assert (Hs : is_Some (cache (snd (get_air_quality_dashboard 19.43 (-99.13)
                                      (fresh_machine (steady_world 0 0))))
                        !! cache_key 19.43 (-99.13)))
    by (vm_compute; eexists; reflexivity).
  destruct (cache_entries_never_removed 0 0
              (snd (get_air_quality_dashboard 19.43 (-99.13)
                      (fresh_machine (steady_world 0 0))))
              (cache_key 19.43 (-99.13))) as (Hkeep & _).
  split; [exact Hne | split; [exact Hs | exact (Hkeep Hne)]].
Defined.



(** ** Upstream failures *)







(** ** What the simulator reads from the weather *)

(** Lines 355-362. *)
Definition wind_factor (wind_speed : Q) : Q :=
  if wind_speed >? 15 then 0.5
  else if wind_speed >? 10 then 0.7
  else if wind_speed >? 5 then 0.85
  else 1.0.

(** Lines 365-370. *)
Definition temp_factor (temp : Q) : Q :=
  if temp <? 10 then 1.3
  else if temp >? 30 then 1.2
  else 1.0.

Lemma simulate_run (lat lon : Q) (weather_data : gmap string Q) (m : Machine) :
  let area := _classify_area lat lon in
  let base :=
    fst (area_mean_spread area) +
    (0 + snd (area_mean_spread area) * normal_draw (world m) (S (tick (world m)))) in
  let noise := 0 + 3 * normal_draw (world m) (S (S (tick (world m)))) in
  _simulate_tempo_advanced lat lon weather_data m =
    (Return
       {| no2 :=
            Py.max 5.0
              (base * default 1.0 (urban_factor_map !! area) *
               traffic_pattern (hour_of (utc_clock (world m) (tick (world m)))) *
               wind_factor (default 5 (weather_data !! "wind_speed")) *
               temp_factor (default 20 (weather_data !! "temperature")) + noise) |},
     step_world (step_world (step_world m))).
Proof.
  cbv zeta. unfold _simulate_tempo_advanced.
  unfold bind at 1. cbn [utcnow].
  rewrite (bind_run _ _ _ _ _ (base_no2_run lat lon _ (step_world m))).
  reflexivity.
Qed.

Lemma urban_factor_pos (lat lon : Q) :
  0 < default 1.0 (urban_factor_map !! _classify_area lat lon).
Proof.
  destruct (classify_area_closed lat lon) as [a ->].
  destruct a; vm_compute; reflexivity.
Qed.

Lemma traffic_pattern_pos (h : Z) : 0 < traffic_pattern h.
Proof.
  unfold traffic_pattern.
  destruct (_ || _)%bool; [reflexivity |].
  destruct (_ && _)%bool; [reflexivity |].
  destruct (_ || _)%bool; reflexivity.
Qed.

Lemma wind_factor_antitone (w w' : Q) : w <= w' -> wind_factor w' <= wind_factor w.
Proof. intros H. unfold wind_factor. case_ltb; lra. Qed.

Lemma temp_factor_pos (t : Q) : 0 < temp_factor t.
Proof. unfold temp_factor. case_ltb; reflexivity. Qed.

Lemma max_monotone (c a b : Q) : a <= b -> Py.max c a <= Py.max c b.
Proof. intros H. unfold Py.max. case_ltb; lra. Qed.

(** X16.  Of the weather the simulator reads only the wind speed and the
    temperature, a missing one counting as 5 and 20: snapshots that
    agree on these give the same outcome, so the humidity plays no part.
    When the baseline sample is not negative, a higher wind speed never
    gives a higher concentration. *)
Theorem simulator_weather_dependence
    (lat lon : Q) (weather_data weather_data' : gmap string Q) (m : Machine)
    (Htemp : default 20 (weather_data' !! "temperature") =
             default 20 (weather_data !! "temperature")) :
  (default 5 (weather_data' !! "wind_speed") =
   default 5 (weather_data !! "wind_speed") ->
   _simulate_tempo_advanced lat lon weather_data' m =
   _simulate_tempo_advanced lat lon weather_data m) /\
  (default 5 (weather_data !! "wind_speed") <=
   default 5 (weather_data' !! "wind_speed") ->
   (forall base m1,
      _get_base_no2_for_area lat lon (_classify_area lat lon) (step_world m) =
        (Return base, m1) -> 0 <= base) ->
   exists sim sim' m',
     _simulate_tempo_advanced lat lon weather_data m = (Return sim, m') /\
     _simulate_tempo_advanced lat lon weather_data' m = (Return sim', m') /\
     no2 sim' <= no2 sim).
Proof.
  split.
  - intros Hwind. rewrite !simulate_run. cbv zeta. rewrite Htemp, Hwind. reflexivity.
  - intros Hwind Hbase.
    specialize (Hbase _ _ (base_no2_run lat lon _ (step_world m))).
    cbn [step_world world advance tick normal_draw] in Hbase.
    eexists _, _, _. rewrite !simulate_run. cbv zeta.
    split; [reflexivity |]. split; [reflexivity |].
    cbn [no2]. apply max_monotone. rewrite Htemp.
    pose proof (urban_factor_pos lat lon) as Hu.
    pose proof (traffic_pattern_pos (hour_of (utc_clock (world m) (tick (world m))))) as Ht.
    pose proof (temp_factor_pos (default 20 (weather_data !! "temperature"))) as Htf.
    pose proof (wind_factor_antitone _ _ Hwind) as Hw.
    set (b := fst (area_mean_spread (_classify_area lat lon)) + _) in *.
    set (u := default 1.0 (urban_factor_map !! _classify_area lat lon)) in *.
    set (tp := traffic_pattern _) in *.
    set (tf := temp_factor _) in *.
    set (w := wind_factor (default 5 (weather_data !! "wind_speed"))) in *.
    set (w' := wind_factor (default 5 (weather_data' !! "wind_speed"))) in *.
    assert (Hk : 0 <= b * u * tp).
    { apply Qmult_le_0_compat; [apply Qmult_le_0_compat |]; lra. }
    assert (Hkw : b * u * tp * w' <= b * u * tp * w).
    { rewrite !(Qmult_comm (b * u * tp)).
      apply Qmult_le_compat_r; assumption. }
    apply Qplus_le_l. apply Qmult_le_compat_r; [exact Hkw | lra].
Qed.

Lemma simulator_weather_dependence_witness :
  let calm : gmap string Q := ∅ in
  let windy : gmap string Q := {[ "wind_speed" := 20; "humidity" := 80 ]} in
  let m := fresh_machine (steady_world 36000000000 0) in
  default 5 (calm !! "wind_speed") <= default 5 (windy !! "wind_speed") /\
  match _simulate_tempo_advanced 0 0 calm m, _simulate_tempo_advanced 0 0 windy m with
  | (Return sim, _), (Return sim', _) =>
      no2 sim == 30 /\ no2 sim' == 15 /\ no2 sim' <= no2 sim
  | _, _ => False
  end.
Proof.
  cbv zeta.
  set (calm := (∅ : gmap string Q)).
  set (windy := ({[ "wind_speed" := 20; "humidity" := 80 ]} : gmap string Q)).
  set (m := fresh_machine (steady_world 36000000000 0)).
  assert (Htemp : default 20 (windy !! "temperature") = default 20 (calm !! "temperature"))
    by reflexivity.
  assert (Hwind : default 5 (calm !! "wind_speed") <= default 5 (windy !! "wind_speed"))
    by (vm_compute; discriminate).
  assert (Hbase : forall base m1,
             _get_base_no2_for_area 0 0 (_classify_area 0 0) (step_world m) =
               (Return base, m1) -> 0 <= base).
  { intros base m1 H. vm_compute in H. injection H as <- _. vm_compute. discriminate. }
  destruct (simulator_weather_dependence 0 0 calm windy m Htemp) as (_ & Hmono).
  destruct (Hmono Hwind Hbase) as (sim & sim' & m' & E & E' & Hle).
  split; [exact Hwind |]. rewrite E, E'.
  vm_compute in E. injection E as <- _.
  vm_compute in E'. injection E' as <- _.
  split; [reflexivity | split; [reflexivity | exact Hle]].
Defined.

(** ** What every live result satisfies *)

Lemma aqi_range_nonneg (x : Q) : 0 <= x -> (0 <= _calculate_aqi x <= 300)%Z.
Proof.
  intros H0. destruct (aqi_bands x H0) as (B1 & B2 & B3 & B4 & B5).
  destruct (Qlt_le_dec x 40); [specialize (B1 ltac:(lra)); lia |].
  destruct (Qlt_le_dec x 80); [specialize (B2 ltac:(lra) ltac:(lra)); lia |].
  destruct (Qlt_le_dec x 120); [specialize (B3 ltac:(lra) ltac:(lra)); lia |].
  destruct (Qlt_le_dec x 160); [specialize (B4 ltac:(lra) ltac:(lra)); lia |].
  specialize (B5 ltac:(lra)); lia.
Qed.

Lemma live_dashboard_inv (lat lon : Q) (m m' : Machine) (r : DashboardResult) :
  live_dashboard lat lon m = (Return r, m') ->
  exists weather_data m2 sim m3 trend m4 fc m5 m6,
    _simulate_tempo_advanced lat lon weather_data m2 = (Return sim, m3) /\
    _generate_historical_trend lat lon m3 = (Return trend, m4) /\
    _generate_forecast lat lon m5 = (Return fc, m6) /\
    air_quality r =
      {| no2_tropospheric := Py.round (no2 sim) 2;
         pm25 := pm25 (air_quality r);
         quality_index := _calculate_quality (no2 sim);
         aqi_value := _calculate_aqi (no2 sim);
         timestamp := timestamp (air_quality r) |} /\
    vulnerability_analysis r = _analyze_vulnerability lat lon (no2 sim) /\
    historical_trend (visualization_data r) = trend /\
    forecast (visualization_data r) = fc /\
    risk_map (visualization_data r) = _generate_risk_map_data lat lon /\
    location (metadata r) = (lat, lon).
Proof.
  unfold live_dashboard. intros H.
  apply bind_inv in H as (openaq_data & m1 & _ & H).
  apply bind_inv in H as (weather_data & m2 & _ & H).
  apply bind_inv in H as (sim & m3 & E3 & H).
  apply bind_inv in H as (trend & m4 & E4 & H).
  apply bind_inv in H as (t1 & m5 & _ & H).
  apply bind_inv in H as (fc & m6 & E6 & H).
  apply bind_inv in H as (t2 & m7 & _ & H).
  apply bind_inv in H as (t3 & m8 & _ & H).
  apply bind_inv in H as ([] & m9 & _ & H).
  injection H as <- _.
  exists weather_data, m2, sim, m3, trend, m4, fc, m5, m6.
  repeat (split; [first [eassumption | reflexivity] |]). reflexivity.
Qed.

(** X17.  Every result computed on the live path reports a
    concentration of at least 5 and an AQI within [0,300], carries one
    of the five quality labels and one of the four risk levels, has
    exactly 7 trend entries and 24 forecast entries, and echoes the
    requested coordinates as location and as centre of the risk map. *)
Theorem live_result_invariants
    (lat lon : Q) (m m' : Machine) (r : DashboardResult)
    (Hlive : live_dashboard lat lon m = (Return r, m')) :
  5 <= no2_tropospheric (air_quality r) /\
  (0 <= aqi_value (air_quality r) <= 300)%Z /\
  In (quality_index (air_quality r)) quality_labels /\
  In (risk_level (vulnerability_analysis r)) risk_levels /\
  length (historical_trend (visualization_data r)) = 7%nat /\
  length (forecast (visualization_data r)) = 24%nat /\
  location (metadata r) = (lat, lon) /\
  center (risk_map (visualization_data r)) = (lat, lon).
Proof.
  destruct (live_dashboard_inv lat lon m m' r Hlive)
    as (wd & m2 & sim & m3 & trend & m4 & fc & m5 & m6 &
        E3 & E4 & E6 & Haq & Hva & Htrend & Hfc & Hmap & Hloc).
  assert (Hsim : 5 <= no2 sim).
  { destruct (simulate_returns_floored lat lon wd m2) as (sim0 & m0 & E0 & H0).
    rewrite E3 in E0. injection E0 as <- _. lra. }
  rewrite Haq, Hva, Htrend, Hfc, Hmap, Hloc.
  cbn [no2_tropospheric aqi_value quality_index _analyze_vulnerability risk_level
       _generate_risk_map_data center].
  split; [apply (round_lower _ 5); exact Hsim |].
  split; [apply aqi_range_nonneg; lra |].
  split.
  { unfold _calculate_quality, quality_labels. case_ltb; simpl; tauto. }
  split.
  { unfold _calculate_risk_level, base_risk, risk_levels.
    destruct (Py.str_in _ _); [| destruct (Py.str_in _ _)]; case_ltb; simpl; tauto. }
  split.
  { rewrite trend_is_loop in E4. rewrite (for_each_length _ _ _ _ _ E4). reflexivity. }
  split; [| split; reflexivity].
  unfold _generate_forecast in E6.
  apply bind_inv in E6 as (now & n1 & _ & E6).
  apply bind_inv in E6 as (base & n2 & _ & E6).
  rewrite (for_each_length _ _ _ _ _ E6). reflexivity.
Qed.

Lemma live_result_invariants_witness :
  match live_dashboard 28.6 77.2 (fresh_machine (steady_world 28800000000 1)) with
  | (Return r, _) =>
      5 <= no2_tropospheric (air_quality r) /\
      aqi_value (air_quality r) = 300%Z /\
      length (forecast (visualization_data r)) = 24%nat
  | (Raise _, _) => False
  end.
Proof.
  destruct (live_dashboard 28.6 77.2 (fresh_machine (steady_world 28800000000 1)))
    as [[r | e] m'] eqn:E.
  - destruct (live_result_invariants 28.6 77.2 _ m' r E) as (H5 & _ & _ & _ & _ & H24 & _).
    split; [exact H5 | split; [| exact H24]].
    vm_compute in E. injection E as <- _. reflexivity.
  - vm_compute in E. discriminate E.
Defined.

(** ** The fallback assessment against the analyzer *)

(** X18.  The assessment of a fallback result agrees with what the
    analyzer gives for the same concentration in area, groups, risk
    level and risk factors.  Its priority differs from the analyzer's
    exactly in two ranges: above 80 and at most 100 in urban_center and
    residential areas (fallback Alta, analyzer Media), and above 50 and
    at most 80 in the four escalating areas (fallback Media, analyzer
    Alta). *)
Theorem fallback_assessment_vs_analyzer (lat lon : Q) (m : Machine) :
  exists x m1 r m',
    _get_base_no2_for_area lat lon (_classify_area lat lon) m = (Return x, m1) /\
    _get_fallback_dashboard lat lon m = (Return r, m') /\
    let va := vulnerability_analysis r in
    let live := _analyze_vulnerability lat lon x in
    area_type va = area_type live /\
    vulnerable_groups va = vulnerable_groups live /\
    risk_level va = risk_level live /\
    risk_factors va = risk_factors live /\
    (protection_priority va <> protection_priority live <->
     (80 < x /\ x <= 100 /\
      In (_classify_area lat lon) ["urban_center"; "residential"]) \/
     (50 < x /\ x <= 80 /\
      In (_classify_area lat lon)
         ["urban_center_extreme"; "industrial_heavy"; "urban_center_high";
          "industrial"])).
Proof.
  destruct (fallback_run lat lon m)
    as (x & m1 & t1 & m2 & trend & m3 & fc & m4 & t2 & m5 & E1 & _ & _ & _ & _ & E).
  exists x, m1. eexists _, m5. split; [exact E1 |]. split; [exact E |].
  cbv zeta. unfold _analyze_vulnerability.
  cbn [vulnerability_analysis area_type vulnerable_groups risk_level risk_factors
       protection_priority].
  repeat (split; [reflexivity |]).
  destruct (classify_area_closed lat lon) as [a ->].
  unfold _calculate_risk_level, base_risk.
  destruct a; case_ltb; try lra;
    match goal with
    | |- ?L <> ?R <-> _ =>
        let l := eval vm_compute in L in
        let r := eval vm_compute in R in
        change L with l; change R with r
    end;
    cbn [area_name In];
    (split;
     [ intros Hne;
       first [ exfalso; apply Hne; reflexivity
             | left; split; [lra | split; [lra | tauto]]
             | right; split; [lra | split; [lra | tauto]] ]
     | intros [(Hlo & Hhi & Hin) | (Hlo & Hhi & Hin)];
       first [ discriminate | lra | exfalso; intuition discriminate ] ]).
Qed.
